(** * crown::os — the platform layer of src/core/os.cpp

    A shallow embedding of the functions of [namespace crown::os] together
    with a small executable model of the operating-system calls they wrap.
    Every function of the source is a thin wrapper, selected at build time
    by the [CROWN_PLATFORM_*] macros, so each definition below takes the
    platform as a parameter and follows the matching [#if] branch line by
    line. *)

From Stdlib Require Import ZArith List String Ascii Bool Lia Permutation.
Import ListNotations.

Local Open Scope string_scope.
Local Open Scope Z_scope.

Set Warnings "-register-all".

(** ** Build configuration *)

(** Modelled from the spec: the [CROWN_PLATFORM_*] macros come from
    platform.h, which is not part of the sources at hand.  The source names
    four targets; "POSIX-family" covers the first three. *)
Inductive platform : Type := Linux | Android | OSX | Windows.

Definition CROWN_PLATFORM_POSIX (pf : platform) : bool :=
  match pf with
  | Windows => false
  | _ => true
  end.

(** ** Outcome of a call *)

(** A call either returns to its caller or stops the process in a failed
    assertion. *)
Inductive result (A : Type) : Type :=
| Ret (a : A)
| Abort (msg : string).

Arguments Ret {A} a.
Arguments Abort {A} msg.

(** Modelled from the spec: [CE_ASSERT] comes from error.h, which is not part
    of the sources at hand.  The spec calls a failed assertion a fatal
    error, a hard abort the caller cannot recover from. *)
Definition CE_ASSERT {A : Type} (condition : bool) (msg : string)
  (rest : result A) : result A :=
  if condition then rest else Abort msg.

Definition returns {A : Type} (r : result A) : Prop :=
  exists a, r = Ret a.

Definition aborts {A : Type} (r : result A) : Prop :=
  exists msg, r = Abort msg.

(** ** Fixed-width integers *)

Definition u32 (z : Z) : Z := z mod 2 ^ 32.
Definition u64 (z : Z) : Z := z mod 2 ^ 64.
Definition s64 (z : Z) : Z := (z + 2 ^ 63) mod 2 ^ 64 - 2 ^ 63.
Definition s32 (z : Z) : Z := (z + 2 ^ 31) mod 2 ^ 32 - 2 ^ 31.

(** ** Sleep *)

(** What [sleep] hands to the operating system. *)
Inductive suspension : Type :=
| usleep (usec : Z)      (* POSIX: microseconds, [useconds_t] *)
| Win32_Sleep (msec : Z) (* Windows: milliseconds, [DWORD] *).

(** void sleep(u32 ms) *)
Definition sleep (pf : platform) (ms : Z) : suspension :=
  if CROWN_PLATFORM_POSIX pf
  then usleep (u32 (ms * 1000))
  else Win32_Sleep ms.

(** The length of a requested suspension, in microseconds, the number
    handed over taken at face value (for the one value Windows reads as
    "for ever" see [suspension_length]). *)
Definition suspension_usec (s : suspension) : Z :=
  match s with
  | usleep usec => usec
  | Win32_Sleep msec => msec * 1000
  end.

(** ** Clocks *)

(** The time sources of the machine.  [mono_ns] counts the nanoseconds since
    boot and only ever advances; [wall_us] is the settable calendar time in
    microseconds since the Unix epoch; [qpf] is the frequency of the Windows
    performance counter, fixed at boot. *)
Record clocks : Type := mkClocks {
  mono_ns : N;
  wall_us : Z;
  qpf : positive
}.

(** What can happen to the clocks between two readings. *)
Inductive clock_event : Type :=
| Elapse (ns : N)          (* time passes *)
| SetWallClock (us : Z)    (* settimeofday, an NTP step, the user *).

Definition clock_step (c : clocks) (e : clock_event) : clocks :=
  match e with
  | Elapse ns =>
      mkClocks (mono_ns c + ns) (wall_us c + Z.of_N ns / 1000) (qpf c)
  | SetWallClock us => mkClocks (mono_ns c) us (qpf c)
  end.

Definition clock_run (c : clocks) (es : list clock_event) : clocks :=
  fold_left clock_step es c.

Record timespec : Type := { ts_sec : Z; ts_nsec : Z }.
Record timeval : Type := { tv_sec : Z; tv_usec : Z }.

(** clock_gettime(CLOCK_MONOTONIC, &now) *)
Definition clock_gettime_MONOTONIC (c : clocks) : timespec :=
  {| ts_sec := Z.of_N (mono_ns c) / 1000000000;
     ts_nsec := Z.of_N (mono_ns c) mod 1000000000 |}.

(** gettimeofday(&now, NULL) *)
Definition gettimeofday (c : clocks) : timeval :=
  {| tv_sec := wall_us c / 1000000;
     tv_usec := wall_us c mod 1000000 |}.

(** QueryPerformanceCounter(&ttime): the counter ticks [qpf] times a second. *)
Definition QueryPerformanceCounter (c : clocks) : Z :=
  Z.of_N (mono_ns c) * Z.pos (qpf c) / 1000000000.

Definition QueryPerformanceFrequency (c : clocks) : Z := Z.pos (qpf c).

(** s64 clocktime() *)
Definition clocktime (pf : platform) (c : clocks) : Z :=
  match pf with
  | Linux | Android =>
      let now := clock_gettime_MONOTONIC c in
      s64 (ts_sec now * s64 1000000000 + ts_nsec now)
  | OSX =>
      let now := gettimeofday c in
      s64 (tv_sec now * s64 1000000 + tv_usec now)
  | Windows => s64 (QueryPerformanceCounter c)
  end.

(** s64 clockfrequency() *)
Definition clockfrequency (pf : platform) (c : clocks) : Z :=
  match pf with
  | Linux | Android => s64 1000000000
  | OSX => s64 1000000
  | Windows => s64 (QueryPerformanceFrequency c)
  end.

(** ** Path names *)

(** A path name is the [const char*] the source passes on.  The kernel cuts
    it at the separators; empty components (doubled or trailing separators)
    are dropped. *)
Fixpoint split (sep : ascii -> bool) (s : string) : string * list string :=
  match s with
  | EmptyString => (EmptyString, [])
  | String c s' =>
      let (h, t) := split sep s' in
      if sep c then (EmptyString, h :: t) else (String c h, t)
  end.

Definition nonempty (s : string) : bool :=
  match s with
  | EmptyString => false
  | String _ _ => true
  end.

Definition components (sep : ascii -> bool) (s : string) : list string :=
  let (h, t) := split sep s in filter nonempty (h :: t).

Definition slash (c : ascii) : bool := Ascii.eqb c "/".
Definition slash_or_backslash (c : ascii) : bool :=
  Ascii.eqb c "/" || Ascii.eqb c "\".

Definition separator (pf : platform) : ascii -> bool :=
  if CROWN_PLATFORM_POSIX pf then slash else slash_or_backslash.

(** ** The file tree *)

(** An entry of the file tree.  Time stamps are in the unit of the platform
    ([time_t] seconds, or the 100 ns intervals of a FILETIME).  A symbolic
    link records its target path name; [dirlink] is the directory flag a
    Windows link is created with, which POSIX ignores.  [Pipe] stands for
    the entries that are neither of the others (FIFOs, sockets, devices). *)
Inductive node : Type :=
| File (mtime : Z) (data : string)
| Folder (mtime : Z) (entries : list (string * node))
| Link (mtime : Z) (dirlink : bool) (target : string)
| Pipe (mtime : Z).

Definition node_mtime (n : node) : Z :=
  match n with
  | File m _ | Folder m _ | Link m _ _ | Pipe m => m
  end.

Fixpoint assoc {A : Type} (name : string) (es : list (string * A)) : option A :=
  match es with
  | [] => None
  | (k, v) :: es' => if String.eqb k name then Some v else assoc name es'
  end.

Fixpoint set_entry (name : string) (new : node) (es : list (string * node))
  : list (string * node) :=
  match es with
  | [] => [(name, new)]
  | (k, v) :: es' =>
      if String.eqb k name then (k, new) :: es'
      else (k, v) :: set_entry name new es'
  end.

(** The entry a list of components leads to, symbolic links not followed. *)
Fixpoint walk (n : node) (p : list string) : option node :=
  match p with
  | [] => Some n
  | c :: p' =>
      match n with
      | Folder _ es =>
          match assoc c es with
          | Some child => walk child p'
          | None => None
          end
      | _ => None
      end
  end.

(** Puts [new] at location [p]; every component before the last must lead
    through folders.  [touch] gives the containing folder its new time
    stamp. *)
Fixpoint store (touch : Z -> Z) (n : node) (p : list string) (new : node)
  : option node :=
  match p with
  | [] => None
  | c :: p' =>
      match n with
      | Folder m es =>
          match p' with
          | [] => Some (Folder (touch m) (set_entry c new es))
          | _ :: _ =>
              match assoc c es with
              | Some child =>
                  match store touch child p' new with
                  | Some child' => Some (Folder m (set_entry c child' es))
                  | None => None
                  end
              | None => None
              end
          end
      | _ => None
      end
  end.

(** The state of the file system: the tree and the time the kernel stamps
    on what it creates or changes.  Path names are resolved from the root of
    the tree; the model leaves out "." and ".." components and symbolic
    links in directory position, which a kernel resolves before it looks up
    the last component. *)
Record filesystem : Type := mkFs {
  root : node;
  now : Z
}.

Definition MAXSYMLINKS : nat := 40.

(** Follows symbolic links from location [p] on: the location reached and
    what is there ([None] inside: nothing, a dangling link), or [None] when
    the chain of links is too long. *)
Fixpoint chase (fuel : nat) (sep : ascii -> bool) (r : node) (p : list string)
  : option (list string * option node) :=
  match walk r p with
  | Some (Link _ _ target) =>
      match fuel with
      | O => None
      | S fuel' => chase fuel' sep r (components sep target)
      end
  | found => Some (p, found)
  end.

(** Name lookup that does not follow a final symbolic link. *)
Definition namei_nofollow (sep : ascii -> bool) (fs : filesystem) (path : string)
  : option node :=
  match path with
  | EmptyString => None
  | _ => walk (root fs) (components sep path)
  end.

(** Name lookup that follows symbolic links. *)
Definition namei_follow (sep : ascii -> bool) (fs : filesystem) (path : string)
  : option (list string * option node) :=
  match path with
  | EmptyString => None
  | _ => chase MAXSYMLINKS sep (root fs) (components sep path)
  end.

(** ** POSIX calls *)

Record stat : Type := mkStat { st_mode : Z; st_mtime : Z }.

Definition S_IFMT : Z := 61440.   (* 0170000 *)
Definition S_IFIFO : Z := 4096.   (* 0010000 *)
Definition S_IFDIR : Z := 16384.  (* 0040000 *)
Definition S_IFREG : Z := 32768.  (* 0100000 *)
Definition S_IFLNK : Z := 40960.  (* 0120000 *)

Definition bool_to_int (b : bool) : Z := if b then 1 else 0.

Definition S_ISDIR (m : Z) : Z := bool_to_int (Z.land m S_IFMT =? S_IFDIR).
Definition S_ISREG (m : Z) : Z := bool_to_int (Z.land m S_IFMT =? S_IFREG).
Definition S_ISLNK (m : Z) : Z := bool_to_int (Z.land m S_IFMT =? S_IFLNK).
Definition S_ISFIFO (m : Z) : Z := bool_to_int (Z.land m S_IFMT =? S_IFIFO).

(** The mode lstat reports: the type bits and the permission bits the
    entry was created with (0644 for files, 0755 for folders, 0777 for
    links). *)
Definition mode_of (n : node) : Z :=
  match n with
  | File _ _ => Z.lor S_IFREG 420
  | Folder _ _ => Z.lor S_IFDIR 493
  | Link _ _ _ => Z.lor S_IFLNK 511
  | Pipe _ => Z.lor S_IFIFO 420
  end.

(** memset(&info, 0, sizeof(info)) *)
Definition zeroed_stat : stat := mkStat 0 0.

(** int lstat(path, &info): 0 and the entry's data, or -1 and [info] as it
    was. *)
Definition lstat (fs : filesystem) (path : string) (info : stat) : Z * stat :=
  match namei_nofollow slash fs path with
  | Some n => (0, mkStat (mode_of n) (node_mtime n))
  | None => (-1, info)
  end.

Definition F_OK : Z := 0.

(** int access(path, F_OK): a symbolic link is dereferenced. *)
Definition access (fs : filesystem) (path : string) (mode : Z) : Z :=
  match namei_follow slash fs path with
  | Some (_, Some _) => 0
  | _ => -1
  end.

(** The limits of the kernel on path names. *)
Definition NAME_MAX : Z := 255.
Definition PATH_MAX : Z := 4096.

Definition dot_name (c : string) : bool :=
  String.eqb c "." || String.eqb c "..".

(** Whether the last character of [s] is a separator. *)
Fixpoint ends_with (sep : ascii -> bool) (s : string) : bool :=
  match s with
  | EmptyString => false
  | String c EmptyString => sep c
  | String _ s' => ends_with sep s'
  end.

Definition starts_with (sep : ascii -> bool) (s : string) : bool :=
  match s with
  | EmptyString => false
  | String c _ => sep c
  end.

(** ENAMETOOLONG: the whole path name or one of its components is too
    long. *)
Definition too_long (path : string) (p : list string) : bool :=
  (PATH_MAX <=? Z.of_nat (String.length path))
  || existsb (fun c => NAME_MAX <? Z.of_nat (String.length c)) p.

(** The last component is "." or "..", which no call can create or
    remove. *)
Definition last_is_dot (p : list string) : bool :=
  match rev p with
  | c :: _ => dot_name c
  | [] => false
  end.

(** int mknod(path, mode, dev), as Linux has it, for the file types an
    unprivileged process may create: ENAMETOOLONG for a name that is too
    long; EEXIST for a last component "." or ".." and when anything, a
    symbolic link included, is at [path]; ENOENT or ENOTDIR for a path that
    ends in a slash and when the containing folder is missing. *)
Definition mknod (fs : filesystem) (path : string) (mode dev : Z)
  : Z * filesystem :=
  let p := components slash path in
  if too_long path p || last_is_dot p || ends_with slash path then (-1, fs)
  else
  match namei_nofollow slash fs path with
  | Some _ => (-1, fs)
  | None =>
      let new :=
        if S_ISREG mode =? 1 then Some (File (now fs) EmptyString)
        else if S_ISFIFO mode =? 1 then Some (Pipe (now fs))
        else None in
      match new with
      | Some n =>
          match store (fun _ => now fs) (root fs) p n with
          | Some r => (0, mkFs r (now fs))
          | None => (-1, fs)
          end
      | None => (-1, fs)
      end
  end.

(** DIR* opendir(path): the stream of names readdir will hand out, the two
    pseudo-entries included, or NULL.  The order of the stream stands for
    the order in which the system enumerates, which no call promises; the
    statements below that speak of a listing say which names it holds, not
    in which order the system gives them. *)
Definition opendir (fs : filesystem) (path : string) : option (list string) :=
  match namei_follow slash fs path with
  | Some (_, Some (Folder _ es)) => Some ("." :: ".." :: map fst es)
  | _ => None
  end.

(** ** Windows calls *)

Definition INVALID_FILE_ATTRIBUTES : Z := 4294967295.
Definition FILE_ATTRIBUTE_DIRECTORY : Z := 16.
Definition FILE_ATTRIBUTE_ARCHIVE : Z := 32.
Definition FILE_ATTRIBUTE_DEVICE : Z := 64.
Definition FILE_ATTRIBUTE_NORMAL : Z := 128.
Definition FILE_ATTRIBUTE_REPARSE_POINT : Z := 1024.

Definition attributes_of (n : node) : Z :=
  match n with
  | File _ _ => FILE_ATTRIBUTE_ARCHIVE
  | Folder _ _ => FILE_ATTRIBUTE_DIRECTORY
  | Link _ dirlink _ =>
      Z.lor FILE_ATTRIBUTE_REPARSE_POINT
        (if dirlink then FILE_ATTRIBUTE_DIRECTORY else FILE_ATTRIBUTE_ARCHIVE)
  | Pipe _ => FILE_ATTRIBUTE_DEVICE
  end.

(** DWORD GetFileAttributes(path): for a symbolic link, the attributes of
    the link itself. *)
Definition GetFileAttributes (fs : filesystem) (path : string) : Z :=
  match namei_nofollow slash_or_backslash fs path with
  | Some n => attributes_of n
  | None => INVALID_FILE_ATTRIBUTES
  end.

(** int _access(path, 0): existence only. *)
Definition _access (fs : filesystem) (path : string) (mode : Z) : Z :=
  match namei_nofollow slash_or_backslash fs path with
  | Some _ => 0
  | None => -1
  end.

(** The two creation dispositions the source uses. *)
Inductive disposition : Type := CREATE_ALWAYS | OPEN_EXISTING.

(** An open handle is the entry it refers to; [None] is
    INVALID_HANDLE_VALUE. *)
Definition HANDLE : Type := option node.

(** HANDLE CreateFile(path, ..., disposition, flags = no
    FILE_FLAG_BACKUP_SEMANTICS, NULL).  Symbolic links are followed.  A
    folder cannot be opened without the backup-semantics flag.
    OPEN_EXISTING opens what is there.  CREATE_ALWAYS creates the file if
    nothing is there and otherwise overwrites it: the file is truncated and
    the call succeeds. *)
Definition CreateFile (fs : filesystem) (path : string) (d : disposition)
  : HANDLE * filesystem :=
  match namei_follow slash_or_backslash fs path with
  | Some (p, Some (File m data)) =>
      match d with
      | OPEN_EXISTING => (Some (File m data), fs)
      | CREATE_ALWAYS =>
          let new := File (now fs) EmptyString in
          match store (fun m' => m') (root fs) p new with
          | Some r => (Some new, mkFs r (now fs))
          | None => (None, fs)
          end
      end
  | Some (p, Some (Pipe m)) => (Some (Pipe m), fs)
  | Some (p, Some _) => (None, fs)
  | Some (p, None) =>
      match d with
      | OPEN_EXISTING => (None, fs)
      | CREATE_ALWAYS =>
          let new := File (now fs) EmptyString in
          match store (fun _ => now fs) (root fs) p new with
          | Some r => (Some new, mkFs r (now fs))
          | None => (None, fs)
          end
      end
  | None => (None, fs)
  end.

Record FILETIME : Type := { dwLowDateTime : Z; dwHighDateTime : Z }.

(** BOOL GetFileTime(hfile, NULL, NULL, &ftwrite): the time of the last
    write, as the two halves of a 64-bit count.  The source reads [ftwrite]
    only behind an assertion that the call succeeded; the zeroes of the
    other case stand for a value that is never read. *)
Definition GetFileTime (hfile : HANDLE) : Z * FILETIME :=
  match hfile with
  | Some n =>
      (1, {| dwLowDateTime := u32 (node_mtime n);
             dwHighDateTime := u32 (Z.shiftr (node_mtime n) 32) |})
  | None => (0, {| dwLowDateTime := 0; dwHighDateTime := 0 |})
  end.

(** HANDLE FindFirstFile(pattern, &ffd) with the FindNextFile calls that
    follow it: the first match and the later ones, or INVALID_HANDLE_VALUE.
    The pattern is a path name whose last component is a name or the
    wildcard "*"; a folder lists its two pseudo-entries first. *)
Definition FindFirstFile (fs : filesystem) (pattern : string)
  : option (string * list string) :=
  match rev (components slash_or_backslash pattern) with
  | [] => None
  | last :: rdir =>
      if String.eqb last "*" then
        match chase MAXSYMLINKS slash_or_backslash (root fs) (rev rdir) with
        | Some (_, Some (Folder _ es)) => Some (".", ".." :: map fst es)
        | _ => None
        end
      else
        match walk (root fs) (rev (last :: rdir)) with
        | Some _ => Some (last, [])
        | None => None
        end
  end.

(** ** The environment *)

(** [environ]: NAME=value pairs; the first pair of a name is the one that
    counts. *)
Definition environment : Type := list (string * string).

(** char* ::getenv(name); [None] is NULL. *)
Definition libc_getenv (env : environment) (name : string) : option string :=
  assoc name env.

(** ** Processes *)

Inductive stream : Type := stdout | stderr.

(** What a program does when it runs: the text it writes, piece by piece,
    and the code it exits with. *)
Record run : Type := mkRun {
  written : list (stream * string);
  exit_code : Z
}.

Definition program : Type := list string -> run.

(** The machine a child process is started on: the programs by path name,
    the path names that are there but cannot be executed (no permission, a
    directory), and the lines the shell prints for a command it cannot find
    and for one it cannot execute. *)
Record host : Type := mkHost {
  executables : list (string * program);
  unrunnable : list string;
  not_found_message : string -> string;
  cannot_execute_message : string -> string
}.

Definition space (c : ascii) : bool := Ascii.eqb c " ".
Definition words (s : string) : list string := components space s.

Definition is_redirect (w : string) : bool := String.eqb w "2>&1".

Definition captured (merge : bool) (ws : list (stream * string)) : string :=
  String.concat EmptyString
    (map snd (filter (fun e => match fst e with
                               | stdout => true
                               | stderr => merge
                               end) ws)).

(** An open pipe from a child: the text still to be read and the status
    pclose will report. *)
Record FILE : Type := mkFILE { unread : string; wait_status : Z }.

(** What the shell does about a command it cannot start: exit code 126 and
    its message for a path that is there but cannot be executed, exit code
    127 and its message for a path at which nothing is found. *)
Definition spawn_failure_code (h : host) (command : string) : Z :=
  if existsb (String.eqb command) (unrunnable h) then 126 else 127.

Definition spawn_failure_message (h : host) (command : string) : string :=
  if existsb (String.eqb command) (unrunnable h)
  then cannot_execute_message h command
  else not_found_message h command.

(** FILE* popen(cmd, "r"): /bin/sh -c cmd with its standard output on the
    pipe, for command lines that are plain words separated by blanks, the
    redirection "2>&1" (standard error goes to the pipe too) among them.
    The operators, quotes and expansions of the shell language are not
    modelled; the statements below are confined to command lines without
    them.  A command that cannot be started makes the shell print its
    message on standard error and exit with 126 or 127; otherwise the shell
    exits with the exit code of the command.  The wait status holds the
    exit code in bits 8 to 15. *)
Definition popen (h : host) (cmd : string) : FILE :=
  let ws := words cmd in
  let merge := existsb is_redirect ws in
  match filter (fun w => negb (is_redirect w)) ws with
  | [] => mkFILE EmptyString 0
  | command :: args =>
      match assoc command (executables h) with
      | None =>
          mkFILE (captured merge [(stderr, spawn_failure_message h command)])
                 (Z.shiftl (spawn_failure_code h command) 8)
      | Some prog =>
          let r := prog args in
          mkFILE (captured merge (written r))
                 (Z.shiftl (exit_code r mod 256) 8)
      end
  end.

Definition newline : ascii := "010"%char.

(** The characters one fgets call takes: at most [n], up to and including
    the first newline. *)
Fixpoint take_line (n : nat) (s : string) : string * string :=
  match n, s with
  | S n', String c s' =>
      if Ascii.eqb c newline then (String c EmptyString, s')
      else let (a, b) := take_line n' s' in (String c a, b)
  | _, _ => (EmptyString, s)
  end.

(** char* fgets(buf, size, file): [None] is NULL, returned at end of file. *)
Definition fgets (size : nat) (file : FILE) : option (string * FILE) :=
  match unread file with
  | EmptyString => None
  | _ =>
      let (buf, rest) := take_line (size - 1) (unread file) in
      Some (buf, mkFILE rest (wait_status file))
  end.

(** int pclose(file) *)
Definition pclose (file : FILE) : Z := wait_status file.

(** BOOL CreateProcess(path, args, ...): the exit code of the child once it
    has run, when it could be started. *)
Definition CreateProcess (h : host) (path args : string) : Z * option Z :=
  match assoc path (executables h) with
  | Some prog => (1, Some (u32 (exit_code (prog (words args)))))
  | None => (0, None)
  end.

(** ** Containers of the engine *)

(** Modelled from the spec: [DynamicString], [Vector] and [StringStream]
    come from dynamic_string.h, vector.h and string_stream.h, which are not
    part of the sources at hand.  The spec has the listing as an ordered
    sequence of entry-name strings and the process output as an append-only
    text sink. *)
Definition DynamicString : Type := string.
Definition Vector (A : Type) : Type := list A.
Definition StringStream : Type := string.

(** vector::push_back(v, x): [x] becomes the last element of [v]. *)
Definition push_back {A : Type} (v : Vector A) (x : A) : Vector A := (v ++ [x])%list.

(** u32 strlen32(s): the length of a C string. *)
Definition strlen32 (s : string) : nat := String.length s.

(** fname.set(s, n): the first [n] characters of [s]. *)
Definition DynamicString_set (s : string) (n : nat) : DynamicString :=
  substring 0 n s.

(** int strcmp(a, b) *)
Definition strcmp (a b : string) : Z :=
  match String.compare a b with
  | Eq => 0
  | Lt => -1
  | Gt => 1
  end.

(** ** The functions of crown::os *)

(** bool exists(const char* path) *)
Definition exists_ (pf : platform) (fs : filesystem) (path : string) : bool :=
  if CROWN_PLATFORM_POSIX pf
  then negb (access fs path F_OK =? -1)
  else negb (_access fs path 0 =? -1).

(** bool is_directory(const char* path) *)
Definition is_directory (pf : platform) (fs : filesystem) (path : string)
  : result bool :=
  if CROWN_PLATFORM_POSIX pf then
    let info := zeroed_stat in
    let (err, info) := lstat fs path info in
    CE_ASSERT (err =? 0) "lstat"
      (Ret ((S_ISDIR (st_mode info) =? 1) && (S_ISLNK (st_mode info) =? 0)))
  else
    let fattr := GetFileAttributes fs path in
    Ret (negb (fattr =? INVALID_FILE_ATTRIBUTES)
         && negb (Z.land fattr FILE_ATTRIBUTE_DIRECTORY =? 0)).

(** bool is_file(const char* path) *)
Definition is_file (pf : platform) (fs : filesystem) (path : string)
  : result bool :=
  if CROWN_PLATFORM_POSIX pf then
    let info := zeroed_stat in
    let (err, info) := lstat fs path info in
    CE_ASSERT (err =? 0) "lstat"
      (Ret ((S_ISREG (st_mode info) =? 1) && (S_ISLNK (st_mode info) =? 0)))
  else
    let fattr := GetFileAttributes fs path in
    Ret (negb (fattr =? INVALID_FILE_ATTRIBUTES)
         && (Z.land fattr FILE_ATTRIBUTE_DIRECTORY =? 0)).

Definition valid_handle (h : HANDLE) : bool :=
  match h with
  | Some _ => true
  | None => false
  end.

(** u64 mtime(const char* path) *)
Definition mtime (pf : platform) (fs : filesystem) (path : string)
  : result Z :=
  if CROWN_PLATFORM_POSIX pf then
    let info := zeroed_stat in
    let (err, info) := lstat fs path info in
    CE_ASSERT (err =? 0) "lstat" (Ret (u64 (st_mtime info)))
  else
    let (hfile, _) := CreateFile fs path OPEN_EXISTING in
    CE_ASSERT (valid_handle hfile) "CreateFile"
      (let (err, ftwrite) := GetFileTime hfile in
       CE_ASSERT (negb (err =? 0)) "GetFileTime"
         (Ret (u64 (Z.lor (Z.shiftl (u64 (dwHighDateTime ftwrite)) 32)
                          (dwLowDateTime ftwrite))))).

(** void create_file(const char* path): how the call ends, and the file
    system it leaves behind. *)
Definition create_file (pf : platform) (fs : filesystem) (path : string)
  : result unit * filesystem :=
  if CROWN_PLATFORM_POSIX pf then
    let (err, fs') := mknod fs path (Z.lor 420 S_IFREG) 0 in
    (CE_ASSERT (err =? 0) "mknod" (Ret tt), fs')
  else
    let (hfile, fs') := CreateFile fs path CREATE_ALWAYS in
    (CE_ASSERT (valid_handle hfile) "CreateFile" (Ret tt), fs').

(** const char* getenv(const char* name) *)
Definition getenv (pf : platform) (env : environment) (name : string)
  : option string :=
  if CROWN_PLATFORM_POSIX pf
  then libc_getenv env name
  else (* GetEnvironmentVariable(name, buf, size); *) None.

(** The test both loops of list_files make on a name. *)
Definition is_dot (dname : string) : bool :=
  (strcmp dname "." =? 0) || (strcmp dname ".." =? 0).

(** while ((entry = readdir(dir))) { ... } *)
Fixpoint readdir_loop (dir : list string) (files : Vector DynamicString)
  : Vector DynamicString :=
  match dir with
  | [] => files
  | dname :: dir' =>
      if is_dot dname then readdir_loop dir' files
      else
        let fname := DynamicString_set dname (strlen32 dname) in
        readdir_loop dir' (push_back files fname)
  end.

(** do { ... } while (FindNextFile(file, &ffd) != 0); [continue] goes to the
    loop test. *)
Fixpoint find_loop (dname : string) (next : list string)
  (files : Vector DynamicString) : Vector DynamicString :=
  let files' :=
    if is_dot dname then files
    else
      let fname := DynamicString_set dname (strlen32 dname) in
      push_back files fname in
  match next with
  | [] => files'
  | dname' :: next' => find_loop dname' next' files'
  end.

(** void list_files(const char* path, Vector<DynamicString>& files): the
    vector after the call. *)
Definition list_files (pf : platform) (fs : filesystem) (path : string)
  (files : Vector DynamicString) : Vector DynamicString :=
  if CROWN_PLATFORM_POSIX pf then
    match opendir fs path with
    | None => files
    | Some dir => readdir_loop dir files
    end
  else
    let cur_path := EmptyString in
    let cur_path := cur_path ++ path in
    let cur_path := cur_path ++ "\*" in
    match FindFirstFile fs cur_path with
    | None => files
    | Some (ffd, next) => find_loop ffd next files
    end.

Definition nul (c : ascii) : bool := Ascii.eqb c "000"%char.

(** A buffer read as a C string: the characters before the first NUL. *)
Fixpoint c_str (buf : string) : string :=
  match buf with
  | EmptyString => EmptyString
  | String c buf' => if nul c then EmptyString else String c (c_str buf')
  end.

(** while (fgets(buf, sizeof(buf), file) != NULL) output << buf;
    [output << buf] takes [buf] as a C string.  Each turn takes at least one
    character off the pipe, so [fuel] turns are enough for a pipe that holds
    [fuel] characters. *)
Fixpoint read_loop (fuel : nat) (file : FILE) (output : StringStream)
  : StringStream * FILE :=
  match fuel with
  | O => (output, file)
  | S fuel' =>
      match fgets 1024 file with
      | Some (buf, file') => read_loop fuel' file' (output ++ c_str buf)
      | None => (output, file)
      end
  end.

(** GetExitCodeProcess(process.hProcess, &exitcode) *)
Definition GetExitCodeProcess (process : option Z) (exitcode : Z) : Z :=
  match process with
  | Some code => code
  | None => exitcode
  end.

(** int execute_process(const char* path, const char* args,
    StringStream& output): the value returned and the sink after the call. *)
Definition execute_process (pf : platform) (h : host) (path args : string)
  (output : StringStream) : result (Z * StringStream) :=
  if CROWN_PLATFORM_POSIX pf then
    let cmd := EmptyString in
    let cmd := cmd ++ path in
    let cmd := cmd ++ " 2>&1 " in
    let cmd := cmd ++ args in
    let file := popen h cmd in
    let (output, file) := read_loop (String.length (unread file)) file output in
    Ret (pclose file, output)
  else
    let (err, process) := CreateProcess h path args in
    CE_ASSERT (negb (err =? 0)) "CreateProcess"
      (let exitcode := 1 in
       let exitcode := GetExitCodeProcess process exitcode in
       Ret (s32 exitcode, output)).

(** ** Removing entries and making directories *)

(** Takes every entry called [name] out of a folder's list. *)
Definition remove_entry (name : string) (es : list (string * node))
  : list (string * node) :=
  filter (fun e => negb (String.eqb (fst e) name)) es.

(** Removes what is at location [p]; there must be something.  [touch] gives
    the containing folder its new time stamp. *)
Fixpoint erase (touch : Z -> Z) (n : node) (p : list string) : option node :=
  match p with
  | [] => None
  | c :: p' =>
      match n with
      | Folder m es =>
          match assoc c es with
          | Some child =>
              match p' with
              | [] => Some (Folder (touch m) (remove_entry c es))
              | _ :: _ =>
                  match erase touch child p' with
                  | Some child' => Some (Folder m (set_entry c child' es))
                  | None => None
                  end
              end
          | None => None
          end
      | _ => None
      end
  end.

(** int unlink(path), as Linux has it: a symbolic link is removed itself;
    EISDIR for a directory, ENOENT when nothing is there. *)
Definition unlink (fs : filesystem) (path : string) : Z * filesystem :=
  match namei_nofollow slash fs path with
  | Some (Folder _ _) => (-1, fs)
  | Some _ =>
      match erase (fun _ => now fs) (root fs) (components slash path) with
      | Some r => (0, mkFs r (now fs))
      | None => (-1, fs)
      end
  | None => (-1, fs)
  end.

(** int mkdir(path, mode): ENAMETOOLONG for a name that is too long; EEXIST
    for a last component "." or ".." and when anything is at [path]; ENOENT
    or ENOTDIR when the containing folder is missing. *)
Definition mkdir (fs : filesystem) (path : string) (mode : Z)
  : Z * filesystem :=
  let p := components slash path in
  if too_long path p || last_is_dot p then (-1, fs)
  else
  match namei_nofollow slash fs path with
  | Some _ => (-1, fs)
  | None =>
      match store (fun _ => now fs) (root fs) (components slash path)
                  (Folder (now fs) []) with
      | Some r => (0, mkFs r (now fs))
      | None => (-1, fs)
      end
  end.

(** int rmdir(path): only an empty directory goes; ENAMETOOLONG for a name
    that is too long, EINVAL or ENOTEMPTY for a last component "." or "..",
    ENOTEMPTY, ENOTDIR, ENOENT otherwise, EBUSY for the root. *)
Definition rmdir (fs : filesystem) (path : string) : Z * filesystem :=
  let p := components slash path in
  if too_long path p || last_is_dot p then (-1, fs)
  else
  match namei_nofollow slash fs path with
  | Some (Folder _ []) =>
      match erase (fun _ => now fs) (root fs) (components slash path) with
      | Some r => (0, mkFs r (now fs))
      | None => (-1, fs)
      end
  | _ => (-1, fs)
  end.

(** BOOL DeleteFile(path): a symbolic link to a file is deleted itself;
    anything with the directory attribute is refused. *)
Definition DeleteFile (fs : filesystem) (path : string) : Z * filesystem :=
  match namei_nofollow slash_or_backslash fs path with
  | Some n =>
      if Z.land (attributes_of n) FILE_ATTRIBUTE_DIRECTORY =? 0 then
        match erase (fun _ => now fs) (root fs)
                    (components slash_or_backslash path) with
        | Some r => (1, mkFs r (now fs))
        | None => (0, fs)
        end
      else (0, fs)
  | None => (0, fs)
  end.

(** BOOL CreateDirectory(path, NULL): ERROR_ALREADY_EXISTS when anything is
    at [path], ERROR_PATH_NOT_FOUND when the containing folder is
    missing. *)
Definition CreateDirectory (fs : filesystem) (path : string)
  : Z * filesystem :=
  match namei_nofollow slash_or_backslash fs path with
  | Some _ => (0, fs)
  | None =>
      match store (fun _ => now fs) (root fs)
                  (components slash_or_backslash path)
                  (Folder (now fs) []) with
      | Some r => (1, mkFs r (now fs))
      | None => (0, fs)
      end
  end.

(** BOOL RemoveDirectory(path): an empty directory goes, and so does a
    symbolic link to a directory, whatever its target holds. *)
Definition RemoveDirectory (fs : filesystem) (path : string)
  : Z * filesystem :=
  match namei_nofollow slash_or_backslash fs path with
  | Some (Folder _ []) | Some (Link _ true _) =>
      match erase (fun _ => now fs) (root fs)
                  (components slash_or_backslash path) with
      | Some r => (1, mkFs r (now fs))
      | None => (0, fs)
      end
  | _ => (0, fs)
  end.

(** void delete_file(const char* path): how the call ends, and the file
    system it leaves behind. *)
Definition delete_file (pf : platform) (fs : filesystem) (path : string)
  : result unit * filesystem :=
  if CROWN_PLATFORM_POSIX pf then
    let (err, fs') := unlink fs path in
    (CE_ASSERT (err =? 0) "unlink" (Ret tt), fs')
  else
    let (err, fs') := DeleteFile fs path in
    (CE_ASSERT (negb (err =? 0)) "DeleteFile" (Ret tt), fs').

(** void create_directory(const char* path) *)
Definition create_directory (pf : platform) (fs : filesystem) (path : string)
  : result unit * filesystem :=
  if CROWN_PLATFORM_POSIX pf then
    let (err, fs') := mkdir fs path 493 in
    (CE_ASSERT (err =? 0) "mkdir" (Ret tt), fs')
  else
    let (err, fs') := CreateDirectory fs path in
    (CE_ASSERT (negb (err =? 0)) "CreateDirectory" (Ret tt), fs').

(** void delete_directory(const char* path) *)
Definition delete_directory (pf : platform) (fs : filesystem) (path : string)
  : result unit * filesystem :=
  if CROWN_PLATFORM_POSIX pf then
    let (err, fs') := rmdir fs path in
    (CE_ASSERT (err =? 0) "rmdir" (Ret tt), fs')
  else
    let (err, fs') := RemoveDirectory fs path in
    (CE_ASSERT (negb (err =? 0)) "RemoveDirectory" (Ret tt), fs').

(** ** Vocabulary of the statements *)

(** What is at [path], a final symbolic link not followed. *)
Definition entry_at (pf : platform) (fs : filesystem) (path : string)
  : option node :=
  namei_nofollow (separator pf) fs path.

Definition is_folder (n : node) : bool :=
  match n with
  | Folder _ _ => true
  | _ => false
  end.

Definition is_regular (n : node) : bool :=
  match n with
  | File _ _ => true
  | _ => false
  end.

Definition is_link (n : node) : bool :=
  match n with
  | Link _ _ _ => true
  | _ => false
  end.

(** The entries Windows reports with FILE_ATTRIBUTE_DIRECTORY. *)
Definition has_directory_attribute (n : node) : bool :=
  match n with
  | Folder _ _ => true
  | Link _ dirlink _ => dirlink
  | _ => false
  end.

(** The folder [list_files] gets to enumerate, if any: what opendir opens
    on POSIX, what the pattern [path\*] matches in on Windows. *)
Definition opened_folder (pf : platform) (fs : filesystem) (path : string)
  : option (list (string * node)) :=
  match
    (if CROWN_PLATFORM_POSIX pf then namei_follow slash fs path
     else chase MAXSYMLINKS slash_or_backslash (root fs)
            (components slash_or_backslash path))
  with
  | Some (_, Some (Folder _ es)) => Some es
  | _ => None
  end.

(** The names list_files keeps. *)
Definition not_dot (dname : string) : bool := negb (is_dot dname).

(** Whether location [p] under [n] holds a folder. *)
Definition folder_at (n : node) (p : list string) : bool :=
  match walk n p with
  | Some (Folder _ _) => true
  | _ => false
  end.

(** The folder that would contain the entry at location [p]. *)
Definition parent_is_folder (fs : filesystem) (p : list string) : bool :=
  match p with
  | [] => false
  | _ :: _ =>
      match walk (root fs) (removelast p) with
      | Some (Folder _ _) => true
      | _ => false
      end
  end.

(** The tick count a platform's clock source holds, before it is cut to 64
    bits. *)
Definition reading (pf : platform) (c : clocks) : Z :=
  match pf with
  | Linux | Android => Z.of_N (mono_ns c)
  | OSX => wall_us c
  | Windows => QueryPerformanceCounter c
  end.

Definition in_s64 (z : Z) : Prop := - 2 ^ 63 <= z < 2 ^ 63.

Definition is_elapse (e : clock_event) : bool :=
  match e with
  | Elapse _ => true
  | SetWallClock _ => false
  end.

Fixpoint no_char (sep : ascii -> bool) (s : string) : bool :=
  match s with
  | EmptyString => true
  | String c s' => negb (sep c) && no_char sep s'
  end.

(** A path name the shell reads as one command word. *)
Definition shell_word (path : string) : bool :=
  nonempty path && no_char space path && negb (is_redirect path).

(** The arguments the shell hands to the command: the words of [args]
    without the redirections. *)
Definition shell_args (args : string) : list string :=
  filter (fun w => negb (is_redirect w)) (words args).

(** ** The regime of the statements on path names and command lines *)

(** The kernels that compare names byte by byte. *)
Definition is_linux (pf : platform) : bool :=
  match pf with
  | Linux | Android => true
  | _ => false
  end.

(** Letters, digits, underscore, hyphen and dot. *)
Definition plain_char (c : ascii) : bool :=
  let n := N_of_ascii c in
  ((48 <=? n) && (n <=? 57) || (65 <=? n) && (n <=? 90)
   || (97 <=? n) && (n <=? 122) || (n =? 95) || (n =? 45) || (n =? 46))%N.

Definition full_stop (c : ascii) : bool := Ascii.eqb c ".".

(** A component made of plain characters that does not end in a dot (so it
    is neither "." nor "..") and is not too long. *)
Definition plain_name (c : string) : bool :=
  nonempty c
  && no_char (fun a => negb (plain_char a)) c
  && negb (ends_with full_stop c)
  && (Z.of_nat (String.length c) <=? NAME_MAX).

(** No symbolic link is met before the last component of [p]. *)
Fixpoint no_link_above (n : node) (p : list string) : bool :=
  match p with
  | c :: ((_ :: _) as p') =>
      match n with
      | Folder _ es =>
          match assoc c es with
          | Some (Link _ _ _) => false
          | Some child => no_link_above child p'
          | None => true
          end
      | _ => true
      end
  | _ => true
  end.

(** A path name for which looking up component by component is all the
    kernel does: absolute, no separator at its end, not too long, every
    component a plain name, and no symbolic link in directory position. *)
Definition plain_path (pf : platform) (fs : filesystem) (path : string)
  : bool :=
  starts_with (separator pf) path
  && negb (ends_with (separator pf) path)
  && (Z.of_nat (String.length path) <? PATH_MAX)
  && forallb plain_name (components (separator pf) path)
  && no_link_above (root fs) (components (separator pf) path).

(** A command name the shell takes for the path name of a program, not for
    a builtin, a keyword or an assignment: an absolute path name made of
    plain characters and slashes. *)
Definition plain_command (path : string) : bool :=
  starts_with slash path
  && no_char (fun c => negb (plain_char c || slash c)) path.

(** Arguments that are plain words separated by blanks: no operator, quote
    or expansion of the shell language. *)
Definition plain_words (args : string) : bool :=
  no_char (fun c => negb (plain_char c || slash c || space c)) args.

(** What the read loop of execute_process adds to the sink for a pipe that
    holds [s]: every chunk fgets hands out, read as a C string. *)
Fixpoint drained (fuel : nat) (s : string) : string :=
  match fuel with
  | O => EmptyString
  | S fuel' =>
      match fgets 1024 (mkFILE s 0) with
      | Some (buf, file') => c_str buf ++ drained fuel' (unread file')
      | None => EmptyString
      end
  end.

Definition through_pipe (text : string) : string :=
  drained (String.length text) text.

(** How long a requested suspension lasts, in microseconds; [None] is for
    ever: Sleep reads 0xFFFFFFFF as INFINITE. *)
Definition suspension_length (s : suspension) : option Z :=
  match s with
  | usleep usec => Some usec
  | Win32_Sleep msec =>
      if msec =? 4294967295 then None else Some (msec * 1000)
  end.

(** ** States used in the examples *)

Definition empty_fs : filesystem := mkFs (Folder 0 []) 0.

(** /tmp holds a.txt and sub; /dangling points nowhere; /dl is a link to
    /tmp. *)
Definition sample_fs : filesystem :=
  mkFs (Folder 1 [("tmp", Folder 2 [("a.txt", File 3 "hi");
                                    ("sub", Folder 4 [])]);
                  ("dangling", Link 5 false "/nowhere");
                  ("dl", Link 6 true "/tmp")]) 100.

Definition sample_clocks : clocks := mkClocks 5000000000 2000000 10000000.

Definition dash_message (command : string) : string :=
  "sh: 1: " ++ command ++ ": not found" ++ String newline EmptyString.

(** A machine without /bin/nope ... *)
Definition host_without : host := mkHost [] [] dash_message dash_message.

(** ... and one where /bin/nope is a program that prints the same line on
    standard error and exits with 127. *)
Definition host_with : host :=
  mkHost [("/bin/nope",
           fun _ => mkRun [(stderr, dash_message "/bin/nope")] 127)]
         [] dash_message dash_message.

(** Two locations part ways: at some position their components differ, so
    neither lies above the other. *)
Fixpoint diverges (q p : list string) : bool :=
  match q, p with
  | c :: q', d :: p' => if String.eqb d c then diverges q' p' else true
  | _, _ => false
  end.

(** The nanoseconds that pass during a run of clock events. *)
Definition elapsed (es : list clock_event) : N :=
  fold_right (fun e acc => match e with
                           | Elapse ns => (ns + acc)%N
                           | SetWallClock _ => acc
                           end) 0%N es.

(** Everything a run wrote, on either stream, in the order written. *)
Definition all_written (r : run) : string :=
  String.concat EmptyString (map snd (written r)).

(** A program that greets on standard output and one that fails with a
    complaint on standard error. *)
Definition host_hello : host :=
  mkHost [("/bin/hello", fun _ => mkRun [(stdout, "hello")] 0);
          ("/bin/fail", fun _ => mkRun [(stdout, "out;"); (stderr, "err")] 3)]
         ["/etc/passwd"] dash_message
         (fun c => "sh: 1: " ++ c ++ ": Permission denied"
                   ++ String newline EmptyString).

(** The path name of the entry called [name] in directory [dir]. *)
Definition child_path (dir name : string) : string :=
  dir ++ String "/" name.

(** A name that is one path component on the platform. *)
Definition single_name (pf : platform) (name : string) : bool :=
  nonempty name && no_char (separator pf) name.

(** What delete_file refuses as a directory: what lstat calls one on POSIX,
    what carries the directory attribute on Windows. *)
Definition counts_as_directory (pf : platform) (n : node) : bool :=
  if CROWN_PLATFORM_POSIX pf then is_folder n else has_directory_attribute n.

(** What delete_directory takes away: an empty directory and, on Windows, a
    symbolic link to a directory. *)
Definition removable_directory (pf : platform) (n : node) : bool :=
  match n with
  | Folder _ [] => true
  | Link _ true _ => negb (CROWN_PLATFORM_POSIX pf)
  | _ => false
  end.

(** The name of the call whose assertion stops a function. *)
Definition by_platform (pf : platform) (posix windows : string) : string :=
  if CROWN_PLATFORM_POSIX pf then posix else windows.

(** How a mutating call may leave the file system: as it was, or with one
    thing stored or erased at location [p]. *)
Definition changed_at (p : list string) (fs fs' : filesystem) : Prop :=
  fs' = fs
  \/ exists r,
       fs' = mkFs r (now fs)
       /\ ((exists touch new, store touch (root fs) p new = Some r)
           \/ (exists touch, erase touch (root fs) p = Some r)).

(** * Properties *)

(** ** Integers and clocks *)

Lemma s64_in_range (z : Z) : in_s64 z -> s64 z = z.
Proof.
  unfold in_s64, s64. intros H.
  rewrite Z.mod_small by lia. lia.
Qed.

Lemma u32_bounds (z : Z) : 0 <= u32 z < 2 ^ 32.
Proof.
  unfold u32. apply Z.mod_pos_bound. lia.
Qed.

Lemma halves_do_not_overlap (hi lo : Z) :
  0 <= lo < 2 ^ 32 -> Z.land (Z.shiftl hi 32) lo = 0.
Proof.
  intros Hlo. apply Z.bits_inj'. intros i Hi.
  rewrite Z.land_spec, Z.bits_0.
  destruct (Z.ltb_spec i 32) as [Hlt | Hge].
  - rewrite Z.shiftl_spec_low by assumption. reflexivity.
  - replace lo with (lo mod 2 ^ 32) by (apply Z.mod_small; assumption).
    rewrite Z.mod_pow2_bits_high by lia. apply andb_false_r.
Qed.

(** The two halves of a FILETIME put together again give the 64-bit
    count. *)
Lemma filetime_joined (m : Z) :
  u64 (Z.lor (Z.shiftl (u64 (u32 (Z.shiftr m 32))) 32) (u32 m)) = u64 m.
Proof.
  pose proof (u32_bounds (Z.shiftr m 32)) as Hhi.
  pose proof (u32_bounds m) as Hlo.
  assert (E : u64 (u32 (Z.shiftr m 32)) = u32 (Z.shiftr m 32)).
  { unfold u64. apply Z.mod_small. lia. }
  rewrite E.
  pose proof (Z.add_lor_land (Z.shiftl (u32 (Z.shiftr m 32)) 32) (u32 m)) as L.
  rewrite (halves_do_not_overlap _ _ Hlo), Z.add_0_r in L. rewrite L.
  rewrite Z.shiftl_mul_pow2 by lia.
  unfold u32 in *. rewrite Z.shiftr_div_pow2 in * by lia.
  unfold u64.
  change (2 ^ 64) with (2 ^ 32 * 2 ^ 32).
  rewrite (Z.rem_mul_r m (2 ^ 32) (2 ^ 32)) by lia.
  rewrite Z.mod_small; lia.
Qed.

Lemma clock_run_mono (es : list clock_event) (c : clocks) :
  (mono_ns c <= mono_ns (clock_run c es))%N.
Proof.
  revert c. induction es as [| e es IH]; intros c; simpl.
  - lia.
  - etransitivity; [| apply IH].
    destruct e; simpl; lia.
Qed.

Lemma clock_run_qpf (es : list clock_event) (c : clocks) :
  qpf (clock_run c es) = qpf c.
Proof.
  revert c. induction es as [| e es IH]; intros c; simpl.
  - reflexivity.
  - rewrite IH. destruct e; reflexivity.
Qed.

Lemma clock_run_wall (es : list clock_event) (c : clocks) :
  forallb is_elapse es = true -> wall_us c <= wall_us (clock_run c es).
Proof.
  revert c. induction es as [| e es IH]; intros c H; simpl in *.
  - lia.
  - apply andb_true_iff in H. destruct H as [He Hes].
    etransitivity; [| apply IH; exact Hes].
    destruct e; [| discriminate]. simpl.
    assert (0 <= Z.of_N ns / 1000) by (apply Z.div_pos; lia).
    lia.
Qed.

Lemma clocktime_reading (pf : platform) (c : clocks) :
  in_s64 (reading pf c) -> clocktime pf c = reading pf c.
Proof.
  intros H.
  assert (E9 : s64 1000000000 = 1000000000) by reflexivity.
  assert (E6 : s64 1000000 = 1000000) by reflexivity.
  destruct pf; unfold clocktime, reading in *; simpl;
    rewrite ?E9, ?E6.
  - rewrite Z.mul_comm, <- Z.div_mod by lia. apply s64_in_range, H.
  - rewrite Z.mul_comm, <- Z.div_mod by lia. apply s64_in_range, H.
  - rewrite Z.mul_comm, <- Z.div_mod by lia. apply s64_in_range, H.
  - apply s64_in_range, H.
Qed.

Lemma reading_monotonic (pf : platform) (c : clocks) (es : list clock_event) :
  pf <> OSX \/ forallb is_elapse es = true ->
  reading pf c <= reading pf (clock_run c es).
Proof.
  intros H.
  pose proof (clock_run_mono es c) as Hm.
  destruct pf; unfold reading.
  - lia.
  - lia.
  - destruct H as [H | H]; [congruence |]. apply clock_run_wall, H.
  - unfold QueryPerformanceCounter. rewrite clock_run_qpf.
    apply Z.div_le_mono; [lia |]. apply Z.mul_le_mono_nonneg_r; lia.
Qed.

(** What does hold: as long as the tick count fits the signed 64-bit return
    type, two successive calls give [t1 >= t0] on the Linux, Android and
    Windows branches whatever happens to the wall clock in between, and on
    the OSX branch when the wall clock is not set in between. *)
Lemma clocktime_monotonic (pf : platform) (c : clocks)
  (es : list clock_event) :
  in_s64 (reading pf c) ->
  in_s64 (reading pf (clock_run c es)) ->
  pf <> OSX \/ forallb is_elapse es = true ->
  clocktime pf c <= clocktime pf (clock_run c es).
Proof.
  intros H0 H1 Hpf.
  rewrite !clocktime_reading by assumption.
  apply reading_monotonic, Hpf.
Qed.

Example clocktime_monotonic_sample :
  clocktime Linux sample_clocks
  <= clocktime Linux (clock_run sample_clocks [Elapse 5; SetWallClock 0]).
Proof.
  apply (clocktime_monotonic Linux sample_clocks
           [Elapse 5; SetWallClock 0]).
  - unfold in_s64; simpl; lia.
  - unfold in_s64; simpl; lia.
  - left; discriminate.
Defined.

(** ** Strings and path names *)

Lemma compare_same (a : string) : String.compare a a = Eq.
Proof.
  pose proof (String.compare_antisym a a) as H.
  destruct (String.compare a a); [reflexivity | discriminate | discriminate].
Qed.

Lemma strcmp_zero (a b : string) : (strcmp a b =? 0) = String.eqb a b.
Proof.
  unfold strcmp.
  destruct (String.compare a b) eqn:E.
  - apply String.compare_eq_iff in E. subst. rewrite String.eqb_refl.
    reflexivity.
  - destruct (String.eqb_spec a b) as [-> | _]; [| reflexivity].
    rewrite compare_same in E. discriminate.
  - destruct (String.eqb_spec a b) as [-> | _]; [| reflexivity].
    rewrite compare_same in E. discriminate.
Qed.

Lemma is_dot_names (s : string) :
  is_dot s = String.eqb s "." || String.eqb s "..".
Proof.
  unfold is_dot. rewrite !strcmp_zero. reflexivity.
Qed.

Lemma is_dot_true (s : string) : is_dot s = true <-> s = "." \/ s = "..".
Proof.
  rewrite is_dot_names, orb_true_iff, !String.eqb_eq. reflexivity.
Qed.

Lemma set_whole (s : string) : DynamicString_set s (strlen32 s) = s.
Proof.
  unfold DynamicString_set, strlen32.
  induction s as [| c s IH]; simpl; [reflexivity | rewrite IH; reflexivity].
Qed.

Lemma append_empty (s : string) : s ++ "" = s.
Proof.
  induction s as [| c s IH]; simpl; [reflexivity | rewrite IH; reflexivity].
Qed.

Lemma append_assoc (a b c : string) : (a ++ b) ++ c = a ++ (b ++ c).
Proof.
  induction a as [| x a IH]; simpl; [reflexivity | rewrite IH; reflexivity].
Qed.

Lemma length_append (a b : string) :
  String.length (a ++ b) = (String.length a + String.length b)%nat.
Proof.
  induction a as [| c a IH]; simpl; [reflexivity | rewrite IH; reflexivity].
Qed.

(** Cutting a string that has a separator in it: the components on both
    sides. *)
Lemma split_at_separator (sep : ascii -> bool) (c : ascii) (q : string) :
  sep c = true ->
  forall p,
    split sep (p ++ String c q) =
    (fst (split sep p),
     (snd (split sep p) ++ fst (split sep q) :: snd (split sep q))%list).
Proof.
  intros Hc. induction p as [| x p IH]; simpl.
  - rewrite Hc. destruct (split sep q); reflexivity.
  - rewrite IH. destruct (split sep p) as [h t]. simpl.
    destruct (sep x); reflexivity.
Qed.

Lemma components_at_separator (sep : ascii -> bool) (c : ascii)
  (p q : string) :
  sep c = true ->
  components sep (p ++ String c q) =
  (components sep p ++ components sep q)%list.
Proof.
  intros Hc. unfold components.
  rewrite (split_at_separator sep c q Hc p).
  destruct (split sep p) as [h t], (split sep q) as [h' t'].
  cbn [fst snd].
  change (h :: t ++ h' :: t')%list with ((h :: t) ++ (h' :: t'))%list.
  apply filter_app.
Qed.

Lemma split_one_word (sep : ascii -> bool) (s : string) :
  no_char sep s = true -> split sep s = (s, []).
Proof.
  induction s as [| c s IH]; simpl; [reflexivity |].
  intros H. apply andb_true_iff in H. destruct H as [Hc Hs].
  rewrite (IH Hs). destruct (sep c); [discriminate | reflexivity].
Qed.

Lemma components_one_word (sep : ascii -> bool) (s : string) :
  nonempty s = true -> no_char sep s = true -> components sep s = [s].
Proof.
  intros Hn Hs. unfold components. rewrite (split_one_word sep s Hs).
  simpl. rewrite Hn. reflexivity.
Qed.

Lemma components_empty (sep : ascii -> bool) : components sep "" = [].
Proof.
  reflexivity.
Qed.

(** ** Name lookup and the file tree *)

Lemma chase_nothing (fuel : nat) (sep : ascii -> bool) (r : node)
  (p : list string) :
  walk r p = None -> chase fuel sep r p = Some (p, None).
Proof.
  intros H. destruct fuel; simpl; rewrite H; reflexivity.
Qed.

Lemma chase_entry (fuel : nat) (sep : ascii -> bool) (r n : node)
  (p : list string) :
  walk r p = Some n -> is_link n = false ->
  chase fuel sep r p = Some (p, Some n).
Proof.
  intros H Hn.
  destruct fuel; simpl; rewrite H; destruct n; try reflexivity; discriminate.
Qed.

Lemma chase_never_ends_on_link (fuel : nat) (sep : ascii -> bool) (r n : node)
  (p q : list string) :
  chase fuel sep r p = Some (q, Some n) -> is_link n = false.
Proof.
  revert p. induction fuel as [| fuel IH]; intros p; simpl.
  - destruct (walk r p) as [[] |]; intros H; inversion H; reflexivity.
  - destruct (walk r p) as [[] |]; intros H;
      try (inversion H; reflexivity).
    eapply IH; eassumption.
Qed.

Lemma follow_nothing (sep : ascii -> bool) (fs : filesystem) (path : string) :
  namei_nofollow sep fs path = None ->
  match namei_follow sep fs path with
  | Some (_, Some _) => False
  | _ => True
  end.
Proof.
  unfold namei_nofollow, namei_follow.
  destruct path as [| c path']; [trivial |].
  intros H. rewrite (chase_nothing _ _ _ _ H). trivial.
Qed.

Lemma follow_entry (sep : ascii -> bool) (fs : filesystem) (path : string)
  (n : node) :
  namei_nofollow sep fs path = Some n -> is_link n = false ->
  namei_follow sep fs path = Some (components sep path, Some n).
Proof.
  unfold namei_nofollow, namei_follow.
  destruct path as [| c path']; [discriminate |].
  intros H Hn. apply chase_entry; assumption.
Qed.

Lemma assoc_set_entry (c : string) (x : node) (es : list (string * node)) :
  assoc c (set_entry c x es) = Some x.
Proof.
  induction es as [| [k v] es IH]; simpl.
  - rewrite String.eqb_refl. reflexivity.
  - destruct (String.eqb k c) eqn:E; simpl; rewrite E; [reflexivity | exact IH].
Qed.

Lemma walk_store (touch : Z -> Z) (new : node) (p : list string) :
  forall n r, store touch n p new = Some r -> walk r p = Some new.
Proof.
  induction p as [| c p' IH]; intros n r H; simpl in H.
  - discriminate.
  - destruct n as [| m es | |]; try discriminate.
    destruct p' as [| c' p''].
    + inversion H; subst. simpl. rewrite assoc_set_entry. reflexivity.
    + destruct (assoc c es) as [child |]; [| discriminate].
      destruct (store touch child (c' :: p'') new) as [child' |] eqn:E;
        [| discriminate].
      inversion H; subst.
      change (walk (Folder m (set_entry c child' es)) (c :: c' :: p''))
        with (match assoc c (set_entry c child' es) with
              | Some ch => walk ch (c' :: p'')
              | None => None
              end).
      rewrite assoc_set_entry. apply (IH child child' E).
Qed.

Lemma store_needs_folder (touch : Z -> Z) (new : node) (p' : list string) :
  forall c n,
    store touch n (c :: p') new = None <->
    folder_at n (removelast (c :: p')) = false.
Proof.
  induction p' as [| c' p'' IH]; intros c n.
  - unfold folder_at. simpl. destruct n; split; congruence.
  - change (removelast (c :: c' :: p'')) with (c :: removelast (c' :: p'')).
    unfold folder_at.
    change (walk n (c :: removelast (c' :: p'')))
      with (match n with
            | Folder _ es =>
                match assoc c es with
                | Some child => walk child (removelast (c' :: p''))
                | None => None
                end
            | _ => None
            end).
    change (store touch n (c :: c' :: p'') new)
      with (match n with
            | Folder m es =>
                match assoc c es with
                | Some child =>
                    match store touch child (c' :: p'') new with
                    | Some child' => Some (Folder m (set_entry c child' es))
                    | None => None
                    end
                | None => None
                end
            | _ => None
            end).
    destruct n as [| m es | |]; try (split; reflexivity).
    destruct (assoc c es) as [child |]; [| split; reflexivity].
    specialize (IH c' child). unfold folder_at in IH.
    destruct (store touch child (c' :: p'') new) as [child' |].
    + split; [discriminate |]. intros H. apply IH in H. discriminate.
    + split; [| reflexivity]. intros _. apply IH. reflexivity.
Qed.

Lemma store_without_parent (touch : Z -> Z) (fs : filesystem)
  (p : list string) (new : node) :
  parent_is_folder fs p = false -> store touch (root fs) p new = None.
Proof.
  destruct p as [| c p']; [reflexivity |].
  intros H. apply store_needs_folder. exact H.
Qed.

Lemma store_with_parent (touch : Z -> Z) (fs : filesystem)
  (p : list string) (new : node) :
  parent_is_folder fs p = true ->
  exists r, store touch (root fs) p new = Some r /\ walk r p = Some new.
Proof.
  destruct p as [| c p']; [discriminate |].
  intros H.
  destruct (store touch (root fs) (c :: p') new) as [r |] eqn:E.
  - exists r. split; [reflexivity | eapply walk_store; exact E].
  - apply store_needs_folder in E.
    unfold parent_is_folder in H. unfold folder_at in E.
    rewrite E in H. discriminate.
Qed.

Lemma lookup_after (sep : ascii -> bool) (r : node) (t : Z) (path : string)
  (new : node) :
  components sep path <> [] ->
  walk r (components sep path) = Some new ->
  namei_nofollow sep (mkFs r t) path = Some new.
Proof.
  intros Hne H. unfold namei_nofollow.
  destruct path; [rewrite components_empty in Hne; congruence | exact H].
Qed.

Lemma parent_gives_components (fs : filesystem) (p : list string) :
  parent_is_folder fs p = true -> p <> [].
Proof.
  destruct p; [discriminate | discriminate].
Qed.

(** ** The loops and the shell *)

Lemma readdir_loop_appends (dir : list string) :
  forall files, readdir_loop dir files = (files ++ filter not_dot dir)%list.
Proof.
  induction dir as [| d dir IH]; intros files; simpl.
  - rewrite app_nil_r. reflexivity.
  - unfold not_dot at 1. destruct (is_dot d); simpl.
    + apply IH.
    + rewrite IH, set_whole. unfold push_back.
      rewrite <- app_assoc. reflexivity.
Qed.

Lemma find_loop_appends (next : list string) :
  forall dname files,
    find_loop dname next files = (files ++ filter not_dot (dname :: next))%list.
Proof.
  induction next as [| d next IH]; intros dname files.
  - simpl. unfold not_dot. destruct (is_dot dname); simpl.
    + rewrite app_nil_r. reflexivity.
    + rewrite set_whole. reflexivity.
  - change (find_loop dname (d :: next) files)
      with (find_loop d next
              (if is_dot dname then files
               else push_back files
                      (DynamicString_set dname (strlen32 dname)))).
    rewrite IH.
    change (filter not_dot (dname :: d :: next))
      with (if not_dot dname then dname :: filter not_dot (d :: next)
            else filter not_dot (d :: next)).
    unfold not_dot at 2. destruct (is_dot dname); simpl negb; cbv iota.
    + reflexivity.
    + rewrite set_whole. unfold push_back. rewrite <- app_assoc. reflexivity.
Qed.

Lemma filter_keeps_all {A : Type} (f : A -> bool) (l : list A) :
  (forall x, In x l -> f x = true) -> filter f l = l.
Proof.
  induction l as [| a l IH]; intros H; simpl; [reflexivity |].
  rewrite (H a) by (left; reflexivity).
  rewrite IH; [reflexivity |]. intros x Hx. apply H. right. exact Hx.
Qed.

Lemma not_dot_kept (l : list string) (s : string) :
  In s (filter not_dot l) -> s <> "." /\ s <> "..".
Proof.
  intros H. apply filter_In in H. destruct H as [_ H].
  unfold not_dot in H. apply negb_true_iff in H.
  split; intros ->; discriminate.
Qed.

Lemma take_line_splits (n : nat) :
  forall s a b,
    take_line n s = (a, b) ->
    s = a ++ b
    /\ (n <> O -> s <> "" -> (String.length b < String.length s)%nat).
Proof.
  induction n as [| n IH]; intros s a b H.
  - simpl in H. inversion H; subst. split; [reflexivity | congruence].
  - destruct s as [| c s'].
    + simpl in H. inversion H; subst. split; [reflexivity | congruence].
    + simpl in H. destruct (Ascii.eqb c newline).
      * inversion H; subst. split; [reflexivity |]. intros _ _. simpl. lia.
      * destruct (take_line n s') as [a' b'] eqn:E.
        inversion H; subst.
        destruct (IH s' a' b E) as [Hs _].
        split; [simpl; rewrite <- Hs; reflexivity |].
        intros _ _. rewrite Hs. simpl. rewrite length_append. lia.
Qed.

(** The read loop empties the pipe when it is given as many turns as the
    pipe holds characters, and adds to the sink what [drained] says. *)
Lemma read_loop_drains (fuel : nat) :
  forall s w output,
    (String.length s <= fuel)%nat ->
    read_loop fuel (mkFILE s w) output
    = (output ++ drained fuel s, mkFILE "" w).
Proof.
  induction fuel as [| fuel IH]; intros s w output Hlen.
  - destruct s; [| simpl in Hlen; lia].
    simpl. rewrite append_empty. reflexivity.
  - destruct s as [| c s'].
    + simpl. rewrite append_empty. reflexivity.
    + unfold read_loop; fold read_loop. unfold drained; fold drained.
      unfold fgets. cbn [unread wait_status].
      destruct (take_line (1024 - 1) (String c s')) as [buf rest] eqn:E.
      destruct (take_line_splits _ _ _ _ E) as [Hs Hlt].
      assert (Hrest : (String.length rest < String.length (String c s'))%nat).
      { apply Hlt; discriminate. }
      cbn [unread].
      rewrite IH by lia.
      rewrite append_assoc. reflexivity.
Qed.

Lemma no_char_append (f : ascii -> bool) (a b : string) :
  no_char f (a ++ b) = no_char f a && no_char f b.
Proof.
  induction a as [| c a IH]; simpl; [reflexivity |].
  rewrite IH. apply andb_assoc.
Qed.

Lemma c_str_whole (buf : string) : no_char nul buf = true -> c_str buf = buf.
Proof.
  induction buf as [| c buf IH]; simpl; [reflexivity |].
  intros H. apply andb_true_iff in H. destruct H as [Hc Hb].
  apply negb_true_iff in Hc. rewrite Hc, (IH Hb). reflexivity.
Qed.

(** Text without a NUL byte comes through the pipe as it is, however long
    its lines. *)
Lemma drained_text (fuel : nat) :
  forall s,
    (String.length s <= fuel)%nat -> no_char nul s = true ->
    drained fuel s = s.
Proof.
  induction fuel as [| fuel IH]; intros s Hlen Hs.
  - destruct s; [reflexivity | simpl in Hlen; lia].
  - destruct s as [| c s']; [reflexivity |].
    unfold drained; fold drained. unfold fgets. cbn [unread wait_status].
    destruct (take_line (1024 - 1) (String c s')) as [buf rest] eqn:E.
    destruct (take_line_splits _ _ _ _ E) as [Hsplit Hlt].
    assert (Hrest : (String.length rest < String.length (String c s'))%nat).
    { apply Hlt; discriminate. }
    cbn [unread].
    rewrite Hsplit, no_char_append in Hs.
    apply andb_true_iff in Hs. destruct Hs as [Hbuf Hr].
    rewrite (c_str_whole buf Hbuf), IH by (try lia; assumption).
    symmetry. exact Hsplit.
Qed.

Lemma through_pipe_text (text : string) :
  no_char nul text = true -> through_pipe text = text.
Proof.
  intros H. apply drained_text; [lia | exact H].
Qed.

Lemma shell_word_parts (path : string) :
  shell_word path = true ->
  nonempty path = true /\ no_char space path = true
  /\ is_redirect path = false.
Proof.
  unfold shell_word. intros H.
  apply andb_true_iff in H. destruct H as [H H3].
  apply andb_true_iff in H. destruct H as [H1 H2].
  apply negb_true_iff in H3. auto.
Qed.

Lemma words_of_command (path args : string) :
  shell_word path = true ->
  words ((("" ++ path) ++ " 2>&1 ") ++ args) = path :: "2>&1" :: words args.
Proof.
  intros H. apply shell_word_parts in H. destruct H as (H1 & H2 & _).
  change ("" ++ path) with path.
  rewrite append_assoc.
  change (" 2>&1 " ++ args) with (String " " ("2>&1" ++ String " " args)).
  unfold words.
  rewrite (components_at_separator space " " path) by reflexivity.
  rewrite (components_at_separator space " " "2>&1" args) by reflexivity.
  rewrite (components_one_word space path H1 H2).
  reflexivity.
Qed.

Lemma popen_command (h : host) (path args : string) :
  shell_word path = true ->
  popen h ((("" ++ path) ++ " 2>&1 ") ++ args) =
  match assoc path (executables h) with
  | None =>
      mkFILE (spawn_failure_message h path)
             (Z.shiftl (spawn_failure_code h path) 8)
  | Some prog =>
      mkFILE (captured true (written (prog (shell_args args))))
             (Z.shiftl (exit_code (prog (shell_args args)) mod 256) 8)
  end.
Proof.
  intros H. unfold popen. rewrite (words_of_command path args H).
  apply shell_word_parts in H. destruct H as (_ & _ & H3).
  cbn [existsb filter]. rewrite H3.
  change (is_redirect "2>&1") with true.
  cbn [negb orb].
  destruct (assoc path (executables h)); reflexivity.
Qed.

(** ** The POSIX branches in closed form *)

Section PosixBranch.

Variable pf : platform.
Hypothesis posix : CROWN_PLATFORM_POSIX pf = true.

Lemma separator_posix : separator pf = slash.
Proof.
  unfold separator. rewrite posix. reflexivity.
Qed.

Lemma exists_posix (fs : filesystem) (path : string) :
  exists_ pf fs path =
  match namei_follow slash fs path with
  | Some (_, Some _) => true
  | _ => false
  end.
Proof.
  unfold exists_, access. rewrite posix.
  destruct (namei_follow slash fs path) as [[q [n |]] |]; reflexivity.
Qed.

Lemma is_directory_posix (fs : filesystem) (path : string) :
  is_directory pf fs path =
  match entry_at pf fs path with
  | Some n => Ret (is_folder n)
  | None => Abort "lstat"
  end.
Proof.
  unfold is_directory, lstat, entry_at.
  rewrite posix, separator_posix.
  destruct (namei_nofollow slash fs path) as [[] |]; reflexivity.
Qed.

Lemma is_file_posix (fs : filesystem) (path : string) :
  is_file pf fs path =
  match entry_at pf fs path with
  | Some n => Ret (is_regular n)
  | None => Abort "lstat"
  end.
Proof.
  unfold is_file, lstat, entry_at.
  rewrite posix, separator_posix.
  destruct (namei_nofollow slash fs path) as [[] |]; reflexivity.
Qed.

Lemma mtime_posix (fs : filesystem) (path : string) :
  mtime pf fs path =
  match entry_at pf fs path with
  | Some n => Ret (u64 (node_mtime n))
  | None => Abort "lstat"
  end.
Proof.
  unfold mtime, lstat, entry_at.
  rewrite posix, separator_posix.
  destruct (namei_nofollow slash fs path); reflexivity.
Qed.

Lemma create_file_posix (fs : filesystem) (path : string) :
  create_file pf fs path =
  if too_long path (components slash path)
     || last_is_dot (components slash path) || ends_with slash path
  then (Abort "mknod", fs)
  else
  match entry_at pf fs path with
  | Some _ => (Abort "mknod", fs)
  | None =>
      match store (fun _ => now fs) (root fs) (components slash path)
                  (File (now fs) "") with
      | Some r => (Ret tt, mkFs r (now fs))
      | None => (Abort "mknod", fs)
      end
  end.
Proof.
  unfold create_file, mknod, entry_at.
  rewrite posix, separator_posix.
  destruct (too_long path (components slash path)
            || last_is_dot (components slash path) || ends_with slash path);
    [reflexivity |].
  destruct (namei_nofollow slash fs path); [reflexivity |].
  change (S_ISREG (Z.lor 420 S_IFREG) =? 1) with true.
  cbv iota.
  destruct (store _ (root fs) (components slash path) _); reflexivity.
Qed.

Lemma getenv_posix (env : environment) (name : string) :
  getenv pf env name = assoc name env.
Proof.
  unfold getenv, libc_getenv. rewrite posix. reflexivity.
Qed.

Lemma sleep_posix (ms : Z) : sleep pf ms = usleep (u32 (ms * 1000)).
Proof.
  unfold sleep. rewrite posix. reflexivity.
Qed.

Lemma execute_process_posix (h : host) (path args : string)
  (output : StringStream) :
  shell_word path = true ->
  execute_process pf h path args output =
  match assoc path (executables h) with
  | None =>
      Ret (Z.shiftl (spawn_failure_code h path) 8,
           output ++ through_pipe (spawn_failure_message h path))
  | Some prog =>
      Ret (Z.shiftl (exit_code (prog (shell_args args)) mod 256) 8,
           output
           ++ through_pipe (captured true (written (prog (shell_args args)))))
  end.
Proof.
  intros H. unfold execute_process. rewrite posix.
  cbv zeta. rewrite (popen_command h path args H).
  destruct (assoc path (executables h)) as [prog |];
    cbn [unread]; rewrite read_loop_drains by lia; reflexivity.
Qed.

End PosixBranch.

(** ** The Windows branch in closed form *)

Section WindowsBranch.

Variable pf : platform.
Hypothesis windows : CROWN_PLATFORM_POSIX pf = false.

Lemma separator_windows : separator pf = slash_or_backslash.
Proof.
  unfold separator. rewrite windows. reflexivity.
Qed.

Lemma exists_windows (fs : filesystem) (path : string) :
  exists_ pf fs path =
  match entry_at pf fs path with
  | Some _ => true
  | None => false
  end.
Proof.
  unfold exists_, _access, entry_at.
  rewrite windows, separator_windows.
  destruct (namei_nofollow slash_or_backslash fs path); reflexivity.
Qed.

Lemma is_directory_windows (fs : filesystem) (path : string) :
  is_directory pf fs path =
  Ret match entry_at pf fs path with
      | Some n => has_directory_attribute n
      | None => false
      end.
Proof.
  unfold is_directory, GetFileAttributes, entry_at.
  rewrite windows, separator_windows.
  destruct (namei_nofollow slash_or_backslash fs path)
    as [[? ? | ? ? | ? [] ? | ?] |]; reflexivity.
Qed.

Lemma is_file_windows (fs : filesystem) (path : string) :
  is_file pf fs path =
  Ret match entry_at pf fs path with
      | Some n => negb (has_directory_attribute n)
      | None => false
      end.
Proof.
  unfold is_file, GetFileAttributes, entry_at.
  rewrite windows, separator_windows.
  destruct (namei_nofollow slash_or_backslash fs path)
    as [[? ? | ? ? | ? [] ? | ?] |]; reflexivity.
Qed.

Lemma mtime_windows (fs : filesystem) (path : string) :
  mtime pf fs path =
  match namei_follow slash_or_backslash fs path with
  | Some (_, Some (File m _)) | Some (_, Some (Pipe m)) => Ret (u64 m)
  | _ => Abort "CreateFile"
  end.
Proof.
  unfold mtime, CreateFile. rewrite windows.
  destruct (namei_follow slash_or_backslash fs path) as [[q [[] |]] |];
    cbn [valid_handle CE_ASSERT GetFileTime node_mtime Z.eqb negb
         dwHighDateTime dwLowDateTime];
    try reflexivity; rewrite filetime_joined; reflexivity.
Qed.


Lemma getenv_windows (env : environment) (name : string) :
  getenv pf env name = None.
Proof.
  unfold getenv. rewrite windows. reflexivity.
Qed.

Lemma sleep_windows (ms : Z) : sleep pf ms = Win32_Sleep ms.
Proof.
  unfold sleep. rewrite windows. reflexivity.
Qed.

Lemma execute_process_windows (h : host) (path args : string)
  (output : StringStream) :
  execute_process pf h path args output =
  match assoc path (executables h) with
  | None => Abort "CreateProcess"
  | Some prog => Ret (s32 (u32 (exit_code (prog (words args)))), output)
  end.
Proof.
  unfold execute_process, CreateProcess. rewrite windows.
  destruct (assoc path (executables h)); reflexivity.
Qed.

End WindowsBranch.

(** ** Both kinds of branch *)

Lemma nothing_there (pf : platform) (fs : filesystem) (path : string) :
  entry_at pf fs path = None -> exists_ pf fs path = false.
Proof.
  intros H. destruct (CROWN_PLATFORM_POSIX pf) eqn:Hpf.
  - rewrite (exists_posix pf Hpf fs path).
    unfold entry_at in H. rewrite (separator_posix pf Hpf) in H.
    pose proof (follow_nothing slash fs path H) as F.
    destruct (namei_follow slash fs path) as [[q [n |]] |];
      [contradiction | reflexivity | reflexivity].
  - rewrite (exists_windows pf Hpf fs path), H. reflexivity.
Qed.

Lemma entry_exists (pf : platform) (fs : filesystem) (path : string) (n : node) :
  entry_at pf fs path = Some n -> is_link n = false ->
  exists_ pf fs path = true.
Proof.
  intros H Hn. destruct (CROWN_PLATFORM_POSIX pf) eqn:Hpf.
  - rewrite (exists_posix pf Hpf fs path).
    unfold entry_at in H. rewrite (separator_posix pf Hpf) in H.
    rewrite (follow_entry slash fs path n H Hn). reflexivity.
  - rewrite (exists_windows pf Hpf fs path), H. reflexivity.
Qed.

Lemma list_files_appends (pf : platform) (fs : filesystem) (path : string)
  (files : Vector DynamicString) :
  list_files pf fs path files =
  (files ++ match opened_folder pf fs path with
            | Some es => filter not_dot (map fst es)
            | None => []
            end)%list.
Proof.
  unfold list_files, opened_folder.
  destruct (CROWN_PLATFORM_POSIX pf).
  - unfold opendir.
    destruct (namei_follow slash fs path) as [[q [[] |]] |];
      try (rewrite app_nil_r; reflexivity).
    rewrite readdir_loop_appends. reflexivity.
  - unfold FindFirstFile.
    change (EmptyString ++ path) with path.
    rewrite (components_at_separator slash_or_backslash "\" path "*")
      by reflexivity.
    change (components slash_or_backslash "*") with ["*"].
    rewrite rev_unit. change (String.eqb "*" "*") with true. cbv iota.
    rewrite rev_involutive.
    destruct (chase MAXSYMLINKS slash_or_backslash (root fs)
                (components slash_or_backslash path)) as [[q [[] |]] |];
      try (rewrite app_nil_r; reflexivity).
    rewrite find_loop_appends. reflexivity.
Qed.

Lemma sleep_in_range (pf : platform) (ms : Z) :
  0 <= ms <= 4294967 -> suspension_usec (sleep pf ms) = ms * 1000.
Proof.
  intros H. unfold sleep.
  destruct (CROWN_PLATFORM_POSIX pf); simpl; [| reflexivity].
  unfold u32. apply Z.mod_small. lia.
Qed.

(** What does hold: on the POSIX branches is_directory returns true iff the
    path exists, is a directory and is not a symbolic link, is_file returns
    true iff the path exists, is a regular file and is not a symbolic link,
    and a symbolic link is neither.  On the Windows branch is_directory
    returns true iff the attributes of the path can be read and carry the
    directory attribute, is_file iff they can be read and do not carry
    it. *)
Lemma classification (pf : platform) (fs : filesystem) (path : string) :
  (CROWN_PLATFORM_POSIX pf = true ->
     (is_directory pf fs path = Ret true <->
        exists_ pf fs path = true
        /\ exists n, entry_at pf fs path = Some n
                     /\ is_folder n = true /\ is_link n = false)
     /\ (is_file pf fs path = Ret true <->
        exists_ pf fs path = true
        /\ exists n, entry_at pf fs path = Some n
                     /\ is_regular n = true /\ is_link n = false)
     /\ (forall n, entry_at pf fs path = Some n -> is_link n = true ->
           is_directory pf fs path = Ret false
           /\ is_file pf fs path = Ret false))
  /\ (CROWN_PLATFORM_POSIX pf = false ->
     (is_directory pf fs path = Ret true <->
        exists n, entry_at pf fs path = Some n
                  /\ has_directory_attribute n = true)
     /\ (is_file pf fs path = Ret true <->
        exists n, entry_at pf fs path = Some n
                  /\ has_directory_attribute n = false)).
Proof.
  split; intros Hpf.
  - rewrite (is_file_posix pf Hpf fs path),
      (is_directory_posix pf Hpf fs path).
    destruct (entry_at pf fs path) as [n |] eqn:E.
    + assert (X : is_link n = false -> exists_ pf fs path = true)
        by apply (entry_exists pf fs path n E).
      split; [| split].
      * split.
        -- intros H. assert (Hf : is_folder n = true) by congruence.
           assert (Hl : is_link n = false) by (destruct n; try discriminate; reflexivity).
           split; [exact (X Hl) |]. exists n. repeat split; assumption.
        -- intros (_ & n' & En & Hf & _). inversion En; subst.
           rewrite Hf. reflexivity.
      * split.
        -- intros H. assert (Hf : is_regular n = true) by congruence.
           assert (Hl : is_link n = false) by (destruct n; try discriminate; reflexivity).
           split; [exact (X Hl) |]. exists n. repeat split; assumption.
        -- intros (_ & n' & En & Hf & _). inversion En; subst.
           rewrite Hf. reflexivity.
      * intros n' En Hl. inversion En; subst.
        destruct n'; try discriminate. split; reflexivity.
    + split; [| split].
      * split; [discriminate | intros (_ & n' & En & _); discriminate].
      * split; [discriminate | intros (_ & n' & En & _); discriminate].
      * discriminate.
  - rewrite (is_file_windows pf Hpf fs path),
      (is_directory_windows pf Hpf fs path).
    destruct (entry_at pf fs path) as [n |] eqn:E.
    + split; split.
      * intros H. exists n. split; [reflexivity | congruence].
      * intros (n' & En & Hd). inversion En; subst. rewrite Hd. reflexivity.
      * intros H. exists n. split; [reflexivity |].
        destruct (has_directory_attribute n); [discriminate | reflexivity].
      * intros (n' & En & Hd). inversion En; subst. rewrite Hd. reflexivity.
    + split; split; try discriminate; intros (n' & En & _); discriminate.
Qed.

Example classification_sample :
  (is_directory Linux sample_fs "/tmp" = Ret true <->
     exists_ Linux sample_fs "/tmp" = true
     /\ exists n, entry_at Linux sample_fs "/tmp" = Some n
                  /\ is_folder n = true /\ is_link n = false)
  /\ is_directory Linux sample_fs "/dl" = Ret false.
Proof.
  split.
  - apply (classification Linux sample_fs "/tmp"). reflexivity.
  - apply (classification Linux sample_fs "/dl") with (n := Link 6 true "/tmp");
      reflexivity.
Defined.

(** ** Plain path names and command lines *)

Lemma dot_name_is_dot (c : string) : is_dot c = dot_name c.
Proof.
  apply is_dot_names.
Qed.

Lemma plain_name_not_dot (c : string) :
  plain_name c = true -> dot_name c = false.
Proof.
  intros H. unfold dot_name.
  destruct (String.eqb_spec c ".") as [-> | _];
    [vm_compute in H; discriminate |].
  destruct (String.eqb_spec c "..") as [-> | _];
    [vm_compute in H; discriminate |].
  reflexivity.
Qed.

Lemma plain_names_fit (p : list string) :
  forallb plain_name p = true ->
  existsb (fun c => NAME_MAX <? Z.of_nat (String.length c)) p = false.
Proof.
  induction p as [| c p IH]; simpl; [reflexivity |].
  intros H. apply andb_true_iff in H. destruct H as [Hc Hp].
  rewrite (IH Hp), orb_false_r.
  unfold plain_name in Hc. apply andb_true_iff in Hc. destruct Hc as [_ Hc].
  apply Z.leb_le in Hc. apply Z.ltb_ge. exact Hc.
Qed.

Lemma plain_names_last (p : list string) :
  forallb plain_name p = true -> last_is_dot p = false.
Proof.
  intros H. unfold last_is_dot.
  destruct (rev p) as [| c t] eqn:E; [reflexivity |].
  apply plain_name_not_dot.
  apply (proj1 (forallb_forall plain_name p) H).
  apply in_rev. rewrite E. left. reflexivity.
Qed.

Lemma plain_path_parts (pf : platform) (fs : filesystem) (path : string) :
  plain_path pf fs path = true ->
  starts_with (separator pf) path = true
  /\ ends_with (separator pf) path = false
  /\ Z.of_nat (String.length path) < PATH_MAX
  /\ forallb plain_name (components (separator pf) path) = true
  /\ no_link_above (root fs) (components (separator pf) path) = true.
Proof.
  unfold plain_path. intros H.
  apply andb_true_iff in H. destruct H as [H H5].
  apply andb_true_iff in H. destruct H as [H H4].
  apply andb_true_iff in H. destruct H as [H H3].
  apply andb_true_iff in H. destruct H as [H1 H2].
  apply negb_true_iff in H2. apply Z.ltb_lt in H3. auto.
Qed.

(** A plain path name passes the checks the kernel makes on the name
    alone. *)
Lemma plain_path_accepted (pf : platform) (fs : filesystem) (path : string) :
  plain_path pf fs path = true ->
  too_long path (components (separator pf) path) = false
  /\ last_is_dot (components (separator pf) path) = false
  /\ ends_with (separator pf) path = false.
Proof.
  intros H. destruct (plain_path_parts pf fs path H) as (_ & H2 & H3 & H4 & _).
  split; [| split; [apply plain_names_last, H4 | exact H2]].
  unfold too_long. rewrite (plain_names_fit _ H4), orb_false_r.
  apply Z.leb_gt. exact H3.
Qed.

Lemma plain_path_named (pf : platform) (fs : filesystem) (path : string) :
  plain_path pf fs path = true -> path <> "".
Proof.
  intros H. destruct (plain_path_parts pf fs path H) as (H1 & _).
  destruct path; [discriminate | discriminate].
Qed.

Lemma is_linux_posix (pf : platform) :
  is_linux pf = true -> CROWN_PLATFORM_POSIX pf = true.
Proof.
  destruct pf; try discriminate; reflexivity.
Qed.

Lemma no_char_weaken (f g : ascii -> bool) (s : string) :
  (forall c, g c = true -> f c = true) ->
  no_char f s = true -> no_char g s = true.
Proof.
  intros Hfg. induction s as [| c s IH]; simpl; [reflexivity |].
  intros H. apply andb_true_iff in H. destruct H as [Hc Hs].
  rewrite (IH Hs), andb_true_r.
  destruct (g c) eqn:Eg; [| reflexivity].
  rewrite (Hfg c Eg) in Hc. discriminate.
Qed.

Lemma plain_command_shell_word (path : string) :
  plain_command path = true -> shell_word path = true.
Proof.
  unfold plain_command, shell_word. intros H.
  apply andb_true_iff in H. destruct H as [H1 H2].
  destruct path as [| c rest]; [discriminate |].
  simpl in H1. apply Ascii.eqb_eq in H1. subst c.
  assert (Hb : no_char space (String "/" rest) = true).
  { assert (W : forall a, space a = true ->
                         negb (plain_char a || slash a) = true).
    { intros a Ha. apply Ascii.eqb_eq in Ha. subst a. reflexivity. }
    apply (no_char_weaken _ space _ W H2). }
  rewrite Hb. reflexivity.
Qed.

(** ** The statements of the specification *)

Ltac it_returns := eexists; reflexivity.
Ltac stops_unchanged := split; [eexists; reflexivity | reflexivity].

(** C1, where it fails: on a POSIX branch is_file and is_directory assert
    that lstat succeeded, so for a path with nothing at it they stop in the
    assertion instead of returning false. *)
Lemma C1_posix_queries_abort :
  lstat empty_fs "/missing" zeroed_stat = (-1, zeroed_stat)
  /\ is_file Linux empty_fs "/missing" = Abort "lstat"
  /\ is_directory Linux empty_fs "/missing" = Abort "lstat".
Proof.
  repeat split.
Qed.

(** C1, amended: exists returns for every path (it is a plain boolean) and
    gives false when nothing is at the path.  On the Windows branch is_file
    and is_directory return for every path, with false when the attributes
    of the path cannot be read.  On the POSIX branches is_file and
    is_directory return exactly when lstat succeeds; when it fails they stop
    in the assertion on its result. *)
Theorem C1_queries (pf : platform) (fs : filesystem) (path : string) :
  (entry_at pf fs path = None -> exists_ pf fs path = false)
  /\ (returns (is_file pf fs path) <->
      CROWN_PLATFORM_POSIX pf = false \/ entry_at pf fs path <> None)
  /\ (returns (is_directory pf fs path) <->
      CROWN_PLATFORM_POSIX pf = false \/ entry_at pf fs path <> None)
  /\ (entry_at pf fs path = None ->
      is_file pf fs path =
        (if CROWN_PLATFORM_POSIX pf then Abort "lstat" else Ret false)
      /\ is_directory pf fs path =
        (if CROWN_PLATFORM_POSIX pf then Abort "lstat" else Ret false)).
Proof.
  split; [apply nothing_there |].
  destruct (CROWN_PLATFORM_POSIX pf) eqn:Hpf.
  - rewrite (is_file_posix pf Hpf fs path),
      (is_directory_posix pf Hpf fs path).
    destruct (entry_at pf fs path) as [n |].
    + split; [| split].
      * split; [intros _; right; discriminate | intros _; it_returns].
      * split; [intros _; right; discriminate | intros _; it_returns].
      * discriminate.
    + split; [| split].
      * split; [intros [a H]; discriminate
               | intros [H | H]; [discriminate | congruence]].
      * split; [intros [a H]; discriminate
               | intros [H | H]; [discriminate | congruence]].
      * intros _; split; reflexivity.
  - rewrite (is_file_windows pf Hpf fs path),
      (is_directory_windows pf Hpf fs path).
    split; [| split].
    + split; [intros _; left; reflexivity | intros _; it_returns].
    + split; [intros _; left; reflexivity | intros _; it_returns].
    + intros H; rewrite H; split; reflexivity.
Qed.

Lemma C1_queries_witness :
  exists_ Linux empty_fs "/missing" = false
  /\ is_file Windows empty_fs "\missing" = Ret false.
Proof.
  split.
  - apply (C1_queries Linux empty_fs "/missing"). reflexivity.
  - apply (C1_queries Windows empty_fs "\missing"). reflexivity.
Defined.

(** C2, where it fails: for a dangling symbolic link exists is false (access
    follows the link) while mtime returns the time of the link itself
    (lstat does not), so a false exists does not make mtime stop in its
    assertion. *)
Lemma C2_dangling_link_has_mtime :
  exists_ Linux sample_fs "/dangling" = false
  /\ mtime Linux sample_fs "/dangling" = Ret 5.
Proof.
  split; reflexivity.
Qed.

(** C2, amended: on the POSIX branches mtime returns the modification time
    lstat reports for the entry at the path itself, converted to u64,
    whenever anything (a symbolic link included, dangling or not) is at the
    path, and stops in its assertion exactly when nothing is there;
    exists(path) is enough for the former, so under exists(path) the
    assertion cannot fire.  On every branch, when nothing is at the path,
    exists is false and mtime stops in its assertion.  On the Windows
    branch a false exists makes mtime stop in its assertion, and for a
    regular file mtime returns its time of last write. *)
Theorem C2_mtime (pf : platform) (fs : filesystem) (path : string) :
  (CROWN_PLATFORM_POSIX pf = true ->
     (forall n, entry_at pf fs path = Some n ->
        mtime pf fs path = Ret (u64 (node_mtime n)))
     /\ (exists_ pf fs path = true ->
        exists n, entry_at pf fs path = Some n
                  /\ mtime pf fs path = Ret (u64 (node_mtime n)))
     /\ (aborts (mtime pf fs path) <-> entry_at pf fs path = None))
  /\ (entry_at pf fs path = None ->
        exists_ pf fs path = false /\ aborts (mtime pf fs path))
  /\ (CROWN_PLATFORM_POSIX pf = false ->
     (exists_ pf fs path = false -> aborts (mtime pf fs path))
     /\ (forall m data, entry_at pf fs path = Some (File m data) ->
           exists_ pf fs path = true /\ mtime pf fs path = Ret (u64 m))).
Proof.
  assert (Nothing : entry_at pf fs path = None -> aborts (mtime pf fs path)).
  { intros E. destruct (CROWN_PLATFORM_POSIX pf) eqn:Hpf.
    - rewrite (mtime_posix pf Hpf fs path), E. it_returns.
    - rewrite (mtime_windows pf Hpf fs path).
      unfold entry_at in E. rewrite (separator_windows pf Hpf) in E.
      pose proof (follow_nothing _ fs path E) as F.
      destruct (namei_follow slash_or_backslash fs path) as [[q [[] |]] |];
        try contradiction; it_returns. }
  split; [| split].
  - intros Hpf. rewrite (mtime_posix pf Hpf fs path). split; [| split].
    + intros n E. rewrite E. reflexivity.
    + intros Hex. destruct (entry_at pf fs path) as [n |] eqn:E.
      * exists n. split; reflexivity.
      * rewrite (nothing_there pf fs path E) in Hex. discriminate.
    + destruct (entry_at pf fs path) as [n |]; split.
      * intros [msg H]; discriminate.
      * discriminate.
      * reflexivity.
      * intros _; it_returns.
  - intros E. split; [apply nothing_there, E | apply Nothing, E].
  - intros Hpf. split.
    + intros Hex. apply Nothing.
      rewrite (exists_windows pf Hpf fs path) in Hex.
      destruct (entry_at pf fs path); [discriminate | reflexivity].
    + intros m data E. split.
      * apply (entry_exists pf fs path _ E). reflexivity.
      * rewrite (mtime_windows pf Hpf fs path).
        unfold entry_at in E. rewrite (separator_windows pf Hpf) in E.
        rewrite (follow_entry _ fs path _ E) by reflexivity. reflexivity.
Qed.

Lemma C2_mtime_witness :
  mtime Linux sample_fs "/dangling" = Ret (u64 5)
  /\ (exists n, entry_at Linux sample_fs "/tmp/a.txt" = Some n
                /\ mtime Linux sample_fs "/tmp/a.txt"
                   = Ret (u64 (node_mtime n)))
  /\ aborts (mtime Windows sample_fs "\nope")
  /\ mtime Windows sample_fs "\tmp\a.txt" = Ret (u64 3).
Proof.
  split; [| split; [| split]].
  - destruct (C2_mtime Linux sample_fs "/dangling") as (H & _).
    destruct (H eq_refl) as (Hv & _).
    apply (Hv (Link 5 false "/nowhere")). reflexivity.
  - destruct (C2_mtime Linux sample_fs "/tmp/a.txt") as (H & _).
    destruct (H eq_refl) as (_ & Hx & _).
    apply Hx. reflexivity.
  - destruct (C2_mtime Windows sample_fs "\nope") as (_ & H & _).
    apply H. reflexivity.
  - destruct (C2_mtime Windows sample_fs "\tmp\a.txt") as (_ & _ & H).
    destruct (H eq_refl) as (_ & Hf).
    apply (Hf 3 "hi"). reflexivity.
Defined.

(** C3, where it fails: on a POSIX branch the command runs through the
    shell, and a path that names no executable gives the very result, value
    and captured output, of a child that ran, printed the shell's line and
    exited with 127. *)
Lemma C3_posix_spawn_failure_looks_like_exit_127 :
  assoc "/bin/nope" (executables host_without) = None
  /\ (exists prog, assoc "/bin/nope" (executables host_with) = Some prog
                   /\ exit_code (prog []) = 127)
  /\ execute_process Linux host_without "/bin/nope" "" ""
     = execute_process Linux host_with "/bin/nope" "" "".
Proof.
  split; [reflexivity |].
  split; [eexists; split; reflexivity |].
  vm_compute. reflexivity.
Qed.

(** C3, amended: for a path that is one plain absolute path name and
    arguments that are plain words separated by blanks, on the POSIX
    branches execute_process on a path that names no executable returns
    the wait status of the shell, 256 times 127 when nothing is found at
    the path and 256 times 126 when what is there cannot be executed, with
    the shell's line added to the output; that result differs from the
    result of every completed run whose child exited with another code
    (and, by the example above, not from one whose child printed the same
    line and exited with that code).  On the Windows branch the failed
    CreateProcess stops the call in its assertion, while every run of a
    child that could be started returns. *)
Theorem C3_spawn_failure (pf : platform) (h : host) (path args : string)
  (output : StringStream) :
  assoc path (executables h) = None ->
  (CROWN_PLATFORM_POSIX pf = true ->
   plain_command path = true ->
   plain_words args = true ->
   execute_process pf h path args output
   = Ret (256 * spawn_failure_code h path,
          output ++ through_pipe (spawn_failure_message h path))
   /\ forall h' path' args' output' prog,
        plain_command path' = true ->
        plain_words args' = true ->
        assoc path' (executables h') = Some prog ->
        exit_code (prog (shell_args args')) mod 256
        <> spawn_failure_code h path ->
        execute_process pf h' path' args' output'
        <> execute_process pf h path args output)
  /\ (CROWN_PLATFORM_POSIX pf = false ->
      aborts (execute_process pf h path args output)
      /\ forall h' path' args' output' prog,
           assoc path' (executables h') = Some prog ->
           returns (execute_process pf h' path' args' output')).
Proof.
  intros Hnone. split.
  - intros Hpf Hw _. apply plain_command_shell_word in Hw.
    rewrite (execute_process_posix pf Hpf h path args output Hw), Hnone.
    rewrite Z.shiftl_mul_pow2 by lia.
    split; [f_equal; f_equal; lia |].
    intros h' path' args' output' prog Hw' _ Hsome Hcode.
    apply plain_command_shell_word in Hw'.
    rewrite (execute_process_posix pf Hpf h' path' args' output' Hw'), Hsome.
    intros E.
    assert (Hv : Z.shiftl (exit_code (prog (shell_args args')) mod 256) 8
                 = spawn_failure_code h path * 2 ^ 8) by congruence.
    rewrite Z.shiftl_mul_pow2 in Hv by lia. lia.
  - intros Hpf.
    rewrite (execute_process_windows pf Hpf h path args output), Hnone.
    split; [it_returns |].
    intros h' path' args' output' prog Hsome.
    rewrite (execute_process_windows pf Hpf h' path' args' output'), Hsome.
    it_returns.
Qed.

Lemma C3_spawn_failure_witness :
  execute_process Linux host_hello "/bin/nope" "-v" "log: "
  = Ret (256 * spawn_failure_code host_hello "/bin/nope",
         "log: "
         ++ through_pipe (spawn_failure_message host_hello "/bin/nope"))
  /\ execute_process Linux host_hello "/etc/passwd" "-v" "log: "
     = Ret (256 * spawn_failure_code host_hello "/etc/passwd",
            "log: "
            ++ through_pipe (spawn_failure_message host_hello "/etc/passwd"))
  /\ aborts (execute_process Windows host_hello "/bin/nope" "-v" "log: ").
Proof.
  destruct (C3_spawn_failure Linux host_hello "/bin/nope" "-v" "log: ")
    as [H _]; [reflexivity |].
  destruct (C3_spawn_failure Linux host_hello "/etc/passwd" "-v" "log: ")
    as [H2 _]; [reflexivity |].
  destruct (C3_spawn_failure Windows host_hello "/bin/nope" "-v" "log: ")
    as [_ H']; [reflexivity |].
  split; [| split].
  - apply H; reflexivity.
  - apply H2; reflexivity.
  - apply H'; reflexivity.
Defined.

(** C4, evaluated where the code departs from it: on the Windows branch a
    symbolic link to a directory carries the directory attribute and
    nothing tests for links, so is_directory answers true for it; the POSIX
    branch answers false for the same path. *)
Theorem C4_windows_link_is_directory :
  entry_at Windows sample_fs "\dl" = Some (Link 6 true "/tmp")
  /\ is_directory Windows sample_fs "\dl" = Ret true
  /\ is_directory Linux sample_fs "/dl" = Ret false.
Proof.
  repeat split.
Qed.




(** C6: for a directory whose entries are exactly a.txt and sub, what
    list_files produces, the names it adds to the vector, is a.txt and sub
    in some order; what it produces never holds "." or ".."; and for a path
    that cannot be opened as a directory it produces nothing and returns.
    Called with an empty vector, the vector after the call is exactly what
    was produced. *)
Theorem C6_list_files_names (pf : platform) (fs : filesystem) (path : string)
  (files : Vector DynamicString) :
  exists produced,
    list_files pf fs path files = (files ++ produced)%list
    /\ ~ In "." produced
    /\ ~ In ".." produced
    /\ (forall es,
          opened_folder pf fs path = Some es ->
          Permutation (map fst es) ["a.txt"; "sub"] ->
          Permutation produced ["a.txt"; "sub"])
    /\ (opened_folder pf fs path = None -> produced = [])
    /\ list_files pf fs path [] = produced.
Proof.
  rewrite !list_files_appends.
  destruct (opened_folder pf fs path) as [es |].
  - exists (filter not_dot (map fst es)).
    split; [reflexivity |].
    split; [intros H; apply not_dot_kept in H; destruct H; congruence |].
    split; [intros H; apply not_dot_kept in H; destruct H; congruence |].
    split; [| split; [discriminate | reflexivity]].
    intros es' E P. inversion E; subst es'.
    rewrite filter_keeps_all; [exact P |].
    intros x Hx. apply (Permutation_in _ P) in Hx.
    destruct Hx as [<- | [<- | []]]; reflexivity.
  - exists []. repeat split; try (intros []); discriminate.
Qed.

Lemma C6_list_files_names_witness :
  exists produced,
    list_files Linux sample_fs "/tmp" ["old"] = (["old"] ++ produced)%list
    /\ Permutation produced ["a.txt"; "sub"].
Proof.
  destruct (C6_list_files_names Linux sample_fs "/tmp" ["old"])
    as (produced & E & _ & _ & P & _ & _).
  exists produced. split; [exact E |].
  apply (P [("a.txt", File 3 "hi"); ("sub", Folder 4 [])]).
  - reflexivity.
  - apply Permutation_refl.
Defined.

(** C7, evaluated where the code departs from it: on the Windows branch
    getenv answers NULL whatever the environment holds, also for a variable
    that is set to "X"; on the POSIX branches the same lookup gives "X". *)
Theorem C7_getenv_windows_stub (env : environment) (name : string) :
  getenv Windows env name = None
  /\ getenv Windows [("CROWN_DATA", "X")] "CROWN_DATA" = None
  /\ getenv Linux [("CROWN_DATA", "X")] "CROWN_DATA" = Some "X".
Proof.
  repeat split.
Qed.

(** C8, evaluated where the code departs from it: on the OSX branch the
    tick count is the calendar time of gettimeofday, so setting the wall
    clock back between two calls makes the second reading smaller than the
    first, while the Linux branch, which reads CLOCK_MONOTONIC, is not
    affected. *)
Theorem C8_osx_goes_backward :
  clocktime OSX (clock_run sample_clocks [Elapse 1000; SetWallClock 1000000])
  < clocktime OSX sample_clocks
  /\ clocktime Linux sample_clocks
     <= clocktime Linux
          (clock_run sample_clocks [Elapse 1000; SetWallClock 1000000]).
Proof.
  split; [reflexivity | discriminate].
Qed.

(** C9, evaluated where the code departs from it: a request of 4294968 ms
    (a little under 72 minutes) reaches usleep as 704 microseconds on the
    POSIX branch, because [ms * 1000] is computed in 32 bits; the Windows
    branch passes the milliseconds on unchanged. *)
Theorem C9_sleep_wraps_around (pf : platform) :
  suspension_usec (sleep pf 4294968) =
  if CROWN_PLATFORM_POSIX pf then 704 else 4294968 * 1000.
Proof.
  destruct pf; reflexivity.
Qed.

(** C10: list_files only appends to the vector it is given: every element
    that was in the vector is still there at the same position, and when
    the path cannot be opened as a directory the vector comes back exactly
    as it was passed, not emptied. *)
Theorem C10_list_files_only_appends (pf : platform) (fs : filesystem)
  (path : string) (files : Vector DynamicString) :
  (exists added, list_files pf fs path files = (files ++ added)%list)
  /\ (forall i x, nth_error files i = Some x ->
        nth_error (list_files pf fs path files) i = Some x)
  /\ (opened_folder pf fs path = None -> list_files pf fs path files = files).
Proof.
  rewrite list_files_appends.
  split; [it_returns |].
  split.
  - intros i x H. rewrite nth_error_app1; [exact H |].
    apply nth_error_Some. congruence.
  - intros E. rewrite E. apply app_nil_r.
Qed.

Lemma C10_list_files_only_appends_witness :
  nth_error (list_files Windows sample_fs "\tmp" ["old"]) 0 = Some "old"
  /\ list_files Linux sample_fs "/tmp/a.txt" ["old"] = ["old"].
Proof.
  split.
  - destruct (C10_list_files_only_appends Windows sample_fs "\tmp" ["old"])
      as (_ & H & _).
    apply H. reflexivity.
  - destruct (C10_list_files_only_appends Linux sample_fs "/tmp/a.txt" ["old"])
      as (_ & _ & H).
    apply H. reflexivity.
Defined.

(** * Further properties of the code *)

(** ** More on the file tree *)

Lemma assoc_set_entry_other (c c' : string) (x : node)
  (es : list (string * node)) :
  String.eqb c c' = false -> assoc c' (set_entry c x es) = assoc c' es.
Proof.
  intros Hc. induction es as [| [k v] es IH]; simpl.
  - rewrite Hc. reflexivity.
  - destruct (String.eqb k c) eqn:E; simpl.
    + apply String.eqb_eq in E. subst k. rewrite Hc. reflexivity.
    + destruct (String.eqb k c'); [reflexivity | exact IH].
Qed.

Lemma assoc_remove_entry (c : string) (es : list (string * node)) :
  assoc c (remove_entry c es) = None.
Proof.
  induction es as [| [k v] es IH]; simpl; [reflexivity |].
  destruct (String.eqb k c) eqn:E; simpl; [exact IH |].
  rewrite E. exact IH.
Qed.

Lemma assoc_remove_entry_other (c c' : string) (es : list (string * node)) :
  String.eqb c c' = false -> assoc c' (remove_entry c es) = assoc c' es.
Proof.
  intros Hc. induction es as [| [k v] es IH]; simpl; [reflexivity |].
  destruct (String.eqb k c) eqn:E; simpl.
  - apply String.eqb_eq in E. subst k. rewrite Hc. exact IH.
  - destruct (String.eqb k c'); [reflexivity | exact IH].
Qed.

Lemma set_entry_fresh (c : string) (x : node) (es : list (string * node)) :
  assoc c es = None -> set_entry c x es = (es ++ [(c, x)])%list.
Proof.
  induction es as [| [k v] es IH]; simpl; [reflexivity |].
  destruct (String.eqb k c); [discriminate |].
  intros H. rewrite (IH H). reflexivity.
Qed.

Lemma remove_entry_absent (c : string) (es : list (string * node)) :
  assoc c es = None -> remove_entry c es = es.
Proof.
  induction es as [| [k v] es IH]; simpl; [reflexivity |].
  destruct (String.eqb k c); [discriminate |].
  intros H. simpl. rewrite (IH H). reflexivity.
Qed.

Lemma remove_after_set (c : string) (x : node) (es : list (string * node)) :
  assoc c es = None -> remove_entry c (set_entry c x es) = es.
Proof.
  intros H. rewrite (set_entry_fresh c x es H).
  unfold remove_entry. rewrite filter_app.
  fold (remove_entry c es). rewrite (remove_entry_absent c es H).
  simpl. rewrite String.eqb_refl. simpl. apply app_nil_r.
Qed.

Lemma walk_app (d : list string) :
  forall n x q, walk n d = Some x -> walk n (d ++ q) = walk x q.
Proof.
  induction d as [| a d IH]; intros n x q H; simpl in *.
  - inversion H. reflexivity.
  - destruct n as [| m es | |]; try discriminate.
    destruct (assoc a es) as [child |]; [| discriminate].
    apply IH. exact H.
Qed.

(** Storing under a folder: the folder gets the entry and the stamp. *)
Lemma store_in_folder (touch : Z -> Z) (c : string) (new : node)
  (d : list string) :
  forall n m es,
    walk n d = Some (Folder m es) ->
    exists r,
      store touch n (d ++ [c]) new = Some r
      /\ walk r d = Some (Folder (touch m) (set_entry c new es)).
Proof.
  induction d as [| a d IH]; intros n m es H.
  - simpl in H. inversion H; subst. simpl. eexists. split; reflexivity.
  - simpl in H. destruct n as [| m0 es0 | |]; try discriminate.
    destruct (assoc a es0) as [child |] eqn:Ea; [| discriminate].
    destruct (IH child m es H) as (child' & Hs & Hw).
    exists (Folder m0 (set_entry a child' es0)). split.
    + change ((a :: d) ++ [c])%list with (a :: (d ++ [c]))%list.
      destruct (d ++ [c])%list as [| b t] eqn:Ed.
      * destruct d; discriminate.
      * simpl. rewrite Ea. simpl in Hs. rewrite Hs. reflexivity.
    + simpl. rewrite assoc_set_entry. exact Hw.
Qed.

(** Erasing under a folder: the folder loses the entry and gets the
    stamp. *)
Lemma erase_in_folder (touch : Z -> Z) (c : string) (d : list string) :
  forall n m es,
    walk n d = Some (Folder m es) ->
    assoc c es <> None ->
    exists r,
      erase touch n (d ++ [c]) = Some r
      /\ walk r d = Some (Folder (touch m) (remove_entry c es)).
Proof.
  induction d as [| a d IH]; intros n m es H Hc.
  - simpl in H. inversion H; subst. simpl.
    destruct (assoc c es); [| congruence]. eexists. split; reflexivity.
  - simpl in H. destruct n as [| m0 es0 | |]; try discriminate.
    destruct (assoc a es0) as [child |] eqn:Ea; [| discriminate].
    destruct (IH child m es H Hc) as (child' & Hs & Hw).
    exists (Folder m0 (set_entry a child' es0)). split.
    + change ((a :: d) ++ [c])%list with (a :: (d ++ [c]))%list.
      destruct (d ++ [c])%list as [| b t] eqn:Ed.
      * destruct d; discriminate.
      * simpl. rewrite Ea. simpl in Hs. rewrite Hs. reflexivity.
    + simpl. rewrite assoc_set_entry. exact Hw.
Qed.

(** What is stored or erased at one location leaves the locations that
    part ways with it as they were. *)
Lemma store_frame (touch : Z -> Z) (new : node) (p : list string) :
  forall n r q,
    store touch n p new = Some r -> diverges q p = true ->
    walk r q = walk n q.
Proof.
  induction p as [| c p' IH]; intros n r q Hs Hd.
  - discriminate.
  - destruct q as [| c' q']; [discriminate |].
    simpl in Hs. destruct n as [| m es | |]; try discriminate.
    simpl in Hd.
    destruct p' as [| b p''].
    + inversion Hs; subst. destruct (String.eqb c c') eqn:E.
      * destruct q'; discriminate.
      * simpl. rewrite (assoc_set_entry_other c c' new es E). reflexivity.
    + destruct (assoc c es) as [child |] eqn:Ea; [| discriminate].
      destruct (store touch child (b :: p'') new) as [child' |] eqn:Ec;
        [| discriminate].
      inversion Hs; subst. destruct (String.eqb c c') eqn:E.
      * apply String.eqb_eq in E. subst c'.
        simpl. rewrite assoc_set_entry, Ea.
        apply (IH child child' q' Ec Hd).
      * simpl. rewrite (assoc_set_entry_other c c' child' es E). reflexivity.
Qed.

Lemma erase_frame (touch : Z -> Z) (p : list string) :
  forall n r q,
    erase touch n p = Some r -> diverges q p = true ->
    walk r q = walk n q.
Proof.
  induction p as [| c p' IH]; intros n r q Hs Hd.
  - discriminate.
  - destruct q as [| c' q']; [discriminate |].
    simpl in Hs. destruct n as [| m es | |]; try discriminate.
    simpl in Hd.
    destruct (assoc c es) as [child |] eqn:Ea; [| discriminate].
    destruct p' as [| b p''].
    + inversion Hs; subst. destruct (String.eqb c c') eqn:E.
      * destruct q'; discriminate.
      * simpl. rewrite (assoc_remove_entry_other c c' es E). reflexivity.
    + destruct (erase touch child (b :: p'')) as [child' |] eqn:Ec;
        [| discriminate].
      inversion Hs; subst. destruct (String.eqb c c') eqn:E.
      * apply String.eqb_eq in E. subst c'.
        simpl. rewrite assoc_set_entry, Ea.
        apply (IH child child' q' Ec Hd).
      * simpl. rewrite (assoc_set_entry_other c c' child' es E). reflexivity.
Qed.

Lemma walk_erase (touch : Z -> Z) (p : list string) :
  forall n r, erase touch n p = Some r -> walk r p = None.
Proof.
  induction p as [| c p' IH]; intros n r H; simpl in H.
  - discriminate.
  - destruct n as [| m es | |]; try discriminate.
    destruct (assoc c es) as [child |] eqn:Ea; [| discriminate].
    destruct p' as [| b p''].
    + inversion H; subst. simpl. rewrite assoc_remove_entry. reflexivity.
    + destruct (erase touch child (b :: p'')) as [child' |] eqn:Ec;
        [| discriminate].
      inversion H; subst.
      change (walk (Folder m (set_entry c child' es)) (c :: b :: p''))
        with (match assoc c (set_entry c child' es) with
              | Some ch => walk ch (b :: p'')
              | None => None
              end).
      rewrite assoc_set_entry. apply (IH child child' Ec).
Qed.

Lemma erase_what_is_there (touch : Z -> Z) (p : list string) :
  forall n x, p <> [] -> walk n p = Some x -> erase touch n p <> None.
Proof.
  induction p as [| c p' IH]; intros n x Hp H; [congruence |].
  simpl in H. destruct n as [| m es | |]; try discriminate.
  simpl. destruct (assoc c es) as [child |] eqn:Ea; [| discriminate].
  destruct p' as [| b p'']; [discriminate |].
  specialize (IH child x ltac:(discriminate) H).
  destruct (erase touch child (b :: p'')); [discriminate | congruence].
Qed.

(** ** Path names of children *)

Lemma slash_separates (pf : platform) : separator pf "/"%char = true.
Proof.
  destruct pf; reflexivity.
Qed.

Lemma child_path_components (pf : platform) (dir name : string) :
  single_name pf name = true ->
  components (separator pf) (child_path dir name) =
  (components (separator pf) dir ++ [name])%list.
Proof.
  unfold single_name. intros H.
  apply andb_true_iff in H. destruct H as [H1 H2].
  unfold child_path.
  rewrite (components_at_separator _ "/" dir name (slash_separates pf)).
  rewrite (components_one_word _ name H1 H2). reflexivity.
Qed.

Lemma entry_at_walk (pf : platform) (fs : filesystem) (path : string) :
  path <> "" ->
  entry_at pf fs path = walk (root fs) (components (separator pf) path).
Proof.
  unfold entry_at, namei_nofollow. destruct path; [congruence | reflexivity].
Qed.

Lemma entry_at_named (pf : platform) (fs : filesystem) (path : string)
  (n : node) :
  entry_at pf fs path = Some n ->
  path <> "" /\ walk (root fs) (components (separator pf) path) = Some n.
Proof.
  unfold entry_at, namei_nofollow.
  destruct path; [discriminate |]. intros H. split; [discriminate | exact H].
Qed.

Lemma child_path_named (dir name : string) : child_path dir name <> "".
Proof.
  unfold child_path. destruct dir; discriminate.
Qed.

Lemma entry_at_child (pf : platform) (fs : filesystem) (dir name : string)
  (m : Z) (es : list (string * node)) :
  entry_at pf fs dir = Some (Folder m es) ->
  single_name pf name = true ->
  entry_at pf fs (child_path dir name) = assoc name es.
Proof.
  intros Hd Hn. apply entry_at_named in Hd. destruct Hd as [_ Hd].
  rewrite (entry_at_walk pf fs _ (child_path_named dir name)).
  rewrite (child_path_components pf dir name Hn).
  rewrite (walk_app _ _ _ [name] Hd). simpl.
  destruct (assoc name es); reflexivity.
Qed.

Lemma opened_folder_entry (pf : platform) (fs : filesystem) (path : string)
  (m : Z) (es : list (string * node)) :
  entry_at pf fs path = Some (Folder m es) ->
  opened_folder pf fs path = Some es.
Proof.
  intros H. unfold opened_folder, entry_at in *.
  destruct (CROWN_PLATFORM_POSIX pf) eqn:Hpf.
  - rewrite (separator_posix pf Hpf) in H.
    rewrite (follow_entry slash fs path _ H) by reflexivity. reflexivity.
  - rewrite (separator_windows pf Hpf) in H.
    unfold namei_nofollow in H. destruct path; [discriminate |].
    rewrite (chase_entry _ _ _ _ _ H) by reflexivity. reflexivity.
Qed.

(** ** The mutating functions in closed form *)

Lemma create_file_plain (pf : platform) (fs : filesystem) (path : string) :
  is_linux pf = true ->
  plain_path pf fs path = true ->
  entry_at pf fs path = None ->
  create_file pf fs path =
  match store (fun _ => now fs) (root fs) (components (separator pf) path)
              (File (now fs) "") with
  | Some r => (Ret tt, mkFs r (now fs))
  | None => (Abort "mknod", fs)
  end.
Proof.
  intros Hl Hplain E. pose proof (is_linux_posix pf Hl) as Hpf.
  destruct (plain_path_accepted pf fs path Hplain) as (A1 & A2 & A3).
  rewrite (create_file_posix pf Hpf fs path), E.
  rewrite (separator_posix pf Hpf) in *.
  rewrite A1, A2, A3. reflexivity.
Qed.

Lemma create_directory_cases (pf : platform) (fs : filesystem)
  (path : string) :
  create_directory pf fs path =
  if CROWN_PLATFORM_POSIX pf
     && (too_long path (components (separator pf) path)
         || last_is_dot (components (separator pf) path))
  then (Abort (by_platform pf "mkdir" "CreateDirectory"), fs)
  else
  match entry_at pf fs path with
  | Some _ => (Abort (by_platform pf "mkdir" "CreateDirectory"), fs)
  | None =>
      match store (fun _ => now fs) (root fs)
                  (components (separator pf) path) (Folder (now fs) []) with
      | Some r => (Ret tt, mkFs r (now fs))
      | None => (Abort (by_platform pf "mkdir" "CreateDirectory"), fs)
      end
  end.
Proof.
  unfold create_directory, mkdir, CreateDirectory, entry_at, by_platform,
    separator.
  destruct (CROWN_PLATFORM_POSIX pf); cbn [andb].
  - destruct (too_long path (components slash path)
              || last_is_dot (components slash path)); [reflexivity |].
    destruct (namei_nofollow slash fs path); [reflexivity |].
    destruct (store _ (root fs) _ _); reflexivity.
  - destruct (namei_nofollow slash_or_backslash fs path); [reflexivity |].
    destruct (store _ (root fs) _ _); reflexivity.
Qed.

Lemma delete_file_cases (pf : platform) (fs : filesystem) (path : string) :
  delete_file pf fs path =
  match entry_at pf fs path with
  | Some n =>
      if counts_as_directory pf n
      then (Abort (by_platform pf "unlink" "DeleteFile"), fs)
      else
        match erase (fun _ => now fs) (root fs)
                    (components (separator pf) path) with
        | Some r => (Ret tt, mkFs r (now fs))
        | None => (Abort (by_platform pf "unlink" "DeleteFile"), fs)
        end
  | None => (Abort (by_platform pf "unlink" "DeleteFile"), fs)
  end.
Proof.
  unfold delete_file, unlink, DeleteFile, entry_at, by_platform,
    counts_as_directory, separator.
  destruct (CROWN_PLATFORM_POSIX pf).
  - destruct (namei_nofollow slash fs path) as [[] |]; try reflexivity;
      simpl; destruct (erase _ (root fs) _); reflexivity.
  - destruct (namei_nofollow slash_or_backslash fs path)
      as [[? ? | ? ? | ? [] ? | ?] |]; try reflexivity;
      simpl; destruct (erase _ (root fs) _); reflexivity.
Qed.

Lemma delete_directory_cases (pf : platform) (fs : filesystem)
  (path : string) :
  delete_directory pf fs path =
  if CROWN_PLATFORM_POSIX pf
     && (too_long path (components (separator pf) path)
         || last_is_dot (components (separator pf) path))
  then (Abort (by_platform pf "rmdir" "RemoveDirectory"), fs)
  else
  match entry_at pf fs path with
  | Some n =>
      if removable_directory pf n then
        match erase (fun _ => now fs) (root fs)
                    (components (separator pf) path) with
        | Some r => (Ret tt, mkFs r (now fs))
        | None => (Abort (by_platform pf "rmdir" "RemoveDirectory"), fs)
        end
      else (Abort (by_platform pf "rmdir" "RemoveDirectory"), fs)
  | None => (Abort (by_platform pf "rmdir" "RemoveDirectory"), fs)
  end.
Proof.
  unfold delete_directory, rmdir, RemoveDirectory, entry_at, by_platform,
    removable_directory, separator.
  destruct (CROWN_PLATFORM_POSIX pf); cbn [andb].
  - destruct (too_long path (components slash path)
              || last_is_dot (components slash path)); [reflexivity |].
    destruct (namei_nofollow slash fs path)
      as [[? ? | ? [| ? ?] | ? [] ? | ?] |]; try reflexivity;
      simpl; destruct (erase _ (root fs) _); reflexivity.
  - destruct (namei_nofollow slash_or_backslash fs path)
      as [[? ? | ? [| ? ?] | ? [] ? | ?] |]; try reflexivity;
      simpl; destruct (erase _ (root fs) _); reflexivity.
Qed.

(** ** Timing and sleeping *)

Lemma clock_run_elapsed (es : list clock_event) (c : clocks) :
  mono_ns (clock_run c es) = (mono_ns c + elapsed es)%N.
Proof.
  unfold clock_run. revert c.
  induction es as [| e es IH]; intros c; simpl.
  - lia.
  - rewrite IH. destruct e; simpl; lia.
Qed.

(** X1: clockfrequency gives the same value whatever happened to the clocks
    since an earlier call.  On the Linux and Android branches it is 10^9 and
    the difference of two clocktime readings is the number of nanoseconds
    that passed between them, wall-clock changes or not, as long as the
    later reading fits 64 bits. *)
Theorem X1_clock_units (pf : platform) (c : clocks) (es : list clock_event) :
  clockfrequency pf (clock_run c es) = clockfrequency pf c
  /\ (pf = Linux \/ pf = Android ->
      in_s64 (reading pf (clock_run c es)) ->
      clockfrequency pf c = 1000000000
      /\ clocktime pf (clock_run c es) - clocktime pf c
         = Z.of_N (elapsed es)).
Proof.
  split.
  - destruct pf; try reflexivity.
    unfold clockfrequency, QueryPerformanceFrequency.
    rewrite clock_run_qpf. reflexivity.
  - intros Hpf Hin.
    assert (H0 : in_s64 (reading pf c)).
    { pose proof (reading_monotonic pf c es) as Hm.
      unfold in_s64 in *.
      assert (0 <= reading pf c) by (destruct Hpf; subst; simpl; lia).
      assert (reading pf c <= reading pf (clock_run c es)).
      { apply Hm. left. destruct Hpf; subst; discriminate. }
      lia. }
    rewrite !clocktime_reading by assumption.
    destruct Hpf; subst; (split; [reflexivity |]);
      unfold reading; rewrite clock_run_elapsed; lia.
Qed.

Lemma X1_clock_units_witness :
  clockfrequency Linux sample_clocks = 1000000000
  /\ clocktime Linux
       (clock_run sample_clocks [Elapse 250; SetWallClock 0; Elapse 750])
     - clocktime Linux sample_clocks
     = Z.of_N (elapsed [Elapse 250; SetWallClock 0; Elapse 750]).
Proof.
  destruct (X1_clock_units Linux sample_clocks
              [Elapse 250; SetWallClock 0; Elapse 750]) as [_ H].
  apply H.
  - left; reflexivity.
  - unfold in_s64; simpl; lia.
Defined.

(** X2: for every 32-bit [ms], a POSIX branch asks the system for at most
    [ms] milliseconds, and for exactly [ms] milliseconds precisely when
    [ms] is at most 4294967: every larger request is cut short.  The
    Windows branch asks for exactly [ms] milliseconds, except that it asks
    for a suspension without end when [ms] is 4294967295, which Sleep reads
    as INFINITE. *)
Theorem X2_sleep_exact_range (pf : platform) (ms : Z) :
  0 <= ms < 2 ^ 32 ->
  (CROWN_PLATFORM_POSIX pf = true ->
   exists usec,
     suspension_length (sleep pf ms) = Some usec
     /\ usec <= ms * 1000
     /\ (usec = ms * 1000 <-> ms <= 4294967))
  /\ (CROWN_PLATFORM_POSIX pf = false ->
      suspension_length (sleep pf ms)
      = if ms =? 4294967295 then None else Some (ms * 1000)).
Proof.
  intros Hms. split; intros Hpf.
  - rewrite (sleep_posix pf Hpf). simpl. unfold u32.
    eexists. split; [reflexivity |].
    pose proof (Z.mod_pos_bound (ms * 1000) (2 ^ 32) ltac:(lia)) as Hb.
    destruct (Z_le_gt_dec ms 4294967) as [Hs | Hl].
    + rewrite Z.mod_small by lia. split; [lia |]. split; auto.
    + split; [lia |]. split; intros E; lia.
  - rewrite (sleep_windows pf Hpf). reflexivity.
Qed.

Lemma X2_sleep_exact_range_witness :
  (exists usec,
     suspension_length (sleep OSX 1500) = Some usec
     /\ usec <= 1500 * 1000
     /\ (usec = 1500 * 1000 <-> 1500 <= 4294967))
  /\ suspension_length (sleep Windows 4294967295) = None.
Proof.
  split.
  - destruct (X2_sleep_exact_range OSX 1500) as (H & _); [lia |].
    apply H. reflexivity.
  - destruct (X2_sleep_exact_range Windows 4294967295) as (_ & H); [lia |].
    apply H. reflexivity.
Defined.

(** ** Kinds of entries *)

(** X3: no path is reported both as a file and as a directory; whatever is
    reported as either exists; and on the Windows branch everything that
    exists is reported as exactly one of the two. *)
Theorem X3_file_or_directory (pf : platform) (fs : filesystem)
  (path : string) :
  ~ (is_file pf fs path = Ret true /\ is_directory pf fs path = Ret true)
  /\ (is_file pf fs path = Ret true \/ is_directory pf fs path = Ret true ->
      exists_ pf fs path = true)
  /\ (CROWN_PLATFORM_POSIX pf = false -> exists_ pf fs path = true ->
      is_file pf fs path = Ret true \/ is_directory pf fs path = Ret true).
Proof.
  destruct (CROWN_PLATFORM_POSIX pf) eqn:Hpf.
  - rewrite (is_file_posix pf Hpf fs path),
      (is_directory_posix pf Hpf fs path).
    destruct (entry_at pf fs path) as [n |] eqn:E.
    + split; [| split].
      * intros [H1 H2]. destruct n; discriminate.
      * intros H. apply (entry_exists pf fs path n E).
        destruct n; try reflexivity; destruct H; discriminate.
      * discriminate.
    + split; [| split].
      * intros [H _]. discriminate.
      * intros [H | H]; discriminate.
      * discriminate.
  - rewrite (is_file_windows pf Hpf fs path),
      (is_directory_windows pf Hpf fs path),
      (exists_windows pf Hpf fs path).
    destruct (entry_at pf fs path) as [n |].
    + destruct (has_directory_attribute n); simpl.
      * split; [intros [H _]; discriminate | auto].
      * split; [intros [_ H]; discriminate | auto].
    + split; [intros [H _]; discriminate |].
      split; [intros [H | H]; discriminate | discriminate].
Qed.

Lemma X3_file_or_directory_witness :
  exists_ Linux sample_fs "/tmp/a.txt" = true
  /\ (is_file Windows sample_fs "\dangling" = Ret true
      \/ is_directory Windows sample_fs "\dangling" = Ret true).
Proof.
  split.
  - apply (X3_file_or_directory Linux sample_fs "/tmp/a.txt").
    left. reflexivity.
  - apply (X3_file_or_directory Windows sample_fs "\dangling");
      reflexivity.
Defined.

(** X4: for a path that is a directory itself, is_directory is true and
    exists is true on every branch, but mtime returns the directory's time
    only on the POSIX branches; on the Windows branch, which opens the path
    with CreateFile and no backup-semantics flag, mtime stops in its
    assertion. *)
Theorem X4_mtime_of_directory (pf : platform) (fs : filesystem)
  (path : string) (m : Z) (es : list (string * node)) :
  entry_at pf fs path = Some (Folder m es) ->
  is_directory pf fs path = Ret true
  /\ exists_ pf fs path = true
  /\ mtime pf fs path =
     (if CROWN_PLATFORM_POSIX pf then Ret (u64 m) else Abort "CreateFile").
Proof.
  intros E.
  split; [| split; [apply (entry_exists pf fs path _ E); reflexivity |]].
  - destruct (CROWN_PLATFORM_POSIX pf) eqn:Hpf.
    + rewrite (is_directory_posix pf Hpf fs path), E. reflexivity.
    + rewrite (is_directory_windows pf Hpf fs path), E. reflexivity.
  - destruct (CROWN_PLATFORM_POSIX pf) eqn:Hpf.
    + rewrite (mtime_posix pf Hpf fs path), E. reflexivity.
    + rewrite (mtime_windows pf Hpf fs path).
      unfold entry_at in E. rewrite (separator_windows pf Hpf) in E.
      rewrite (follow_entry _ fs path _ E) by reflexivity. reflexivity.
Qed.

Lemma X4_mtime_of_directory_witness :
  mtime Linux sample_fs "/tmp" = Ret (u64 2)
  /\ mtime Windows sample_fs "\tmp" = Abort "CreateFile".
Proof.
  split.
  - apply (X4_mtime_of_directory Linux sample_fs "/tmp" 2
             [("a.txt", File 3 "hi"); ("sub", Folder 4 [])]).
    reflexivity.
  - apply (X4_mtime_of_directory Windows sample_fs "\tmp" 2
             [("a.txt", File 3 "hi"); ("sub", Folder 4 [])]).
    reflexivity.
Defined.

(** ** Creating and deleting files *)

Lemma queries_on_file (pf : platform) (fs : filesystem) (path : string)
  (t : Z) (data : string) :
  entry_at pf fs path = Some (File t data) ->
  exists_ pf fs path = true
  /\ is_file pf fs path = Ret true
  /\ is_directory pf fs path = Ret false
  /\ mtime pf fs path = Ret (u64 t).
Proof.
  intros E.
  split; [apply (entry_exists pf fs path _ E); reflexivity |].
  destruct (CROWN_PLATFORM_POSIX pf) eqn:Hpf.
  - rewrite (is_file_posix pf Hpf fs path),
      (is_directory_posix pf Hpf fs path), (mtime_posix pf Hpf fs path), E.
    repeat split.
  - rewrite (is_file_windows pf Hpf fs path),
      (is_directory_windows pf Hpf fs path), (mtime_windows pf Hpf fs path),
      E.
    unfold entry_at in E. rewrite (separator_windows pf Hpf) in E.
    rewrite (follow_entry _ fs path _ E) by reflexivity.
    repeat split.
Qed.

Lemma queries_by_entry (pf : platform) (fs fs' : filesystem)
  (path : string) :
  entry_at pf fs' path = entry_at pf fs path ->
  is_file pf fs' path = is_file pf fs path
  /\ is_directory pf fs' path = is_directory pf fs path.
Proof.
  intros E. destruct (CROWN_PLATFORM_POSIX pf) eqn:Hpf.
  - rewrite !(is_file_posix pf Hpf), !(is_directory_posix pf Hpf), E.
    split; reflexivity.
  - rewrite !(is_file_windows pf Hpf), !(is_directory_windows pf Hpf), E.
    split; reflexivity.
Qed.

(** X5: on the Linux and Android branches, for a plain path name: when
    nothing is at the path and the containing directory is there,
    create_file returns, and right after it exists and is_file answer true,
    is_directory answers false, and mtime returns the time of the
    creation. *)
Theorem X5_created_file_is_seen (pf : platform) (fs : filesystem)
  (path : string) :
  is_linux pf = true ->
  plain_path pf fs path = true ->
  entry_at pf fs path = None ->
  parent_is_folder fs (components (separator pf) path) = true ->
  exists fs',
    create_file pf fs path = (Ret tt, fs')
    /\ exists_ pf fs' path = true
    /\ is_file pf fs' path = Ret true
    /\ is_directory pf fs' path = Ret false
    /\ mtime pf fs' path = Ret (u64 (now fs)).
Proof.
  intros Hl Hplain E Hp. rewrite (create_file_plain pf fs path Hl Hplain E).
  destruct (store_with_parent (fun _ => now fs) fs _ (File (now fs) "") Hp)
    as (r & Hs & Hw).
  rewrite Hs. eexists. split; [reflexivity |].
  apply (queries_on_file pf _ path (now fs) "").
  apply lookup_after; [eapply parent_gives_components; exact Hp | exact Hw].
Qed.

Lemma X5_created_file_is_seen_witness :
  exists fs',
    create_file Linux sample_fs "/tmp/new.txt" = (Ret tt, fs')
    /\ exists_ Linux fs' "/tmp/new.txt" = true
    /\ is_file Linux fs' "/tmp/new.txt" = Ret true
    /\ is_directory Linux fs' "/tmp/new.txt" = Ret false
    /\ mtime Linux fs' "/tmp/new.txt" = Ret (u64 100).
Proof.
  apply (X5_created_file_is_seen Linux sample_fs "/tmp/new.txt");
    reflexivity.
Defined.

Lemma changed_at_frame (p q : list string) (fs fs' : filesystem) :
  changed_at p fs fs' -> diverges q p = true ->
  walk (root fs') q = walk (root fs) q.
Proof.
  intros [-> | (r & -> & [(touch & new & H) | (touch & H)])] Hd.
  - reflexivity.
  - simpl. eapply store_frame; eassumption.
  - simpl. eapply erase_frame; eassumption.
Qed.

Lemma create_file_changes (pf : platform) (fs : filesystem) (path : string) :
  CROWN_PLATFORM_POSIX pf = true ->
  changed_at (components (separator pf) path) fs
             (snd (create_file pf fs path)).
Proof.
  intros Hpf. rewrite (create_file_posix pf Hpf fs path).
  rewrite (separator_posix pf Hpf).
  destruct (too_long _ _ || last_is_dot _ || ends_with slash path);
    [left; reflexivity |].
  destruct (entry_at pf fs path); [left; reflexivity |].
  destruct (store _ (root fs) _ _) as [r |] eqn:Hs; [| left; reflexivity].
  right. exists r. split; [reflexivity |]. left. eauto.
Qed.

Lemma create_directory_changes (pf : platform) (fs : filesystem)
  (path : string) :
  changed_at (components (separator pf) path) fs
             (snd (create_directory pf fs path)).
Proof.
  rewrite create_directory_cases.
  destruct (CROWN_PLATFORM_POSIX pf && _); [left; reflexivity |].
  destruct (entry_at pf fs path); [left; reflexivity |].
  destruct (store _ (root fs) _ _) as [r |] eqn:Hs; [| left; reflexivity].
  right. exists r. split; [reflexivity |]. left. eauto.
Qed.

Lemma delete_file_changes (pf : platform) (fs : filesystem) (path : string) :
  changed_at (components (separator pf) path) fs
             (snd (delete_file pf fs path)).
Proof.
  rewrite delete_file_cases.
  destruct (entry_at pf fs path) as [n |]; [| left; reflexivity].
  destruct (counts_as_directory pf n); [left; reflexivity |].
  destruct (erase _ (root fs) _) as [r |] eqn:Hs; [| left; reflexivity].
  right. exists r. split; [reflexivity |]. right. eauto.
Qed.

Lemma delete_directory_changes (pf : platform) (fs : filesystem)
  (path : string) :
  changed_at (components (separator pf) path) fs
             (snd (delete_directory pf fs path)).
Proof.
  rewrite delete_directory_cases.
  destruct (CROWN_PLATFORM_POSIX pf && _); [left; reflexivity |].
  destruct (entry_at pf fs path) as [n |]; [| left; reflexivity].
  destruct (removable_directory pf n); [| left; reflexivity].
  destruct (erase _ (root fs) _) as [r |] eqn:Hs; [| left; reflexivity].
  right. exists r. split; [reflexivity |]. right. eauto.
Qed.

Lemma unchanged_elsewhere (pf : platform) (fs fs' : filesystem)
  (path other : string) :
  changed_at (components (separator pf) path) fs fs' ->
  diverges (components (separator pf) other) (components (separator pf) path)
  = true ->
  entry_at pf fs' other = entry_at pf fs other
  /\ is_file pf fs' other = is_file pf fs other
  /\ is_directory pf fs' other = is_directory pf fs other.
Proof.
  intros Hc Hd.
  assert (E : entry_at pf fs' other = entry_at pf fs other).
  { destruct other as [| a o]; [reflexivity |].
    rewrite !entry_at_walk by discriminate.
    eapply changed_at_frame; eassumption. }
  split; [exact E | apply queries_by_entry, E].
Qed.

(** X6: on the Linux and Android branches, for plain path names:
    create_file, delete_file, create_directory and delete_directory,
    whether they return or stop in their assertion, leave every other path
    that parts ways with theirs as it was: the same entry, the same answers
    of is_file and is_directory. *)
Theorem X6_mutators_touch_one_place (pf : platform) (fs : filesystem)
  (path other : string) :
  is_linux pf = true ->
  plain_path pf fs path = true ->
  plain_path pf fs other = true ->
  diverges (components (separator pf) other) (components (separator pf) path)
  = true ->
  forall fs',
    fs' = snd (create_file pf fs path)
    \/ fs' = snd (delete_file pf fs path)
    \/ fs' = snd (create_directory pf fs path)
    \/ fs' = snd (delete_directory pf fs path) ->
    entry_at pf fs' other = entry_at pf fs other
    /\ is_file pf fs' other = is_file pf fs other
    /\ is_directory pf fs' other = is_directory pf fs other.
Proof.
  intros Hl _ _ Hd fs' H.
  apply (unchanged_elsewhere pf fs fs' path other); [| exact Hd].
  destruct H as [-> | [-> | [-> | ->]]].
  - apply create_file_changes, is_linux_posix, Hl.
  - apply delete_file_changes.
  - apply create_directory_changes.
  - apply delete_directory_changes.
Qed.

Lemma X6_mutators_touch_one_place_witness :
  entry_at Linux (snd (delete_file Linux sample_fs "/tmp/a.txt")) "/tmp/sub"
  = entry_at Linux sample_fs "/tmp/sub"
  /\ is_file Linux (snd (delete_file Linux sample_fs "/tmp/a.txt")) "/tmp/sub"
     = is_file Linux sample_fs "/tmp/sub"
  /\ is_directory Linux (snd (delete_file Linux sample_fs "/tmp/a.txt"))
       "/tmp/sub"
     = is_directory Linux sample_fs "/tmp/sub".
Proof.
  apply (X6_mutators_touch_one_place Linux sample_fs "/tmp/a.txt" "/tmp/sub");
    try reflexivity.
  right. left. reflexivity.
Defined.

Lemma names_after_set_entry (c : string) (x : node)
  (es : list (string * node)) :
  assoc c es = None ->
  map fst (set_entry c x es) = (map fst es ++ [c])%list.
Proof.
  intros H. rewrite (set_entry_fresh c x es H), map_app. reflexivity.
Qed.

(** Storing a new entry in a folder and erasing it again. *)
Lemma store_then_erase (touch : Z -> Z) (c : string) (new : node)
  (d : list string) (n : node) (m : Z) (es : list (string * node)) :
  walk n d = Some (Folder m es) ->
  assoc c es = None ->
  exists r1 r2,
    store touch n (d ++ [c]) new = Some r1
    /\ walk r1 d = Some (Folder (touch m) (set_entry c new es))
    /\ erase touch r1 (d ++ [c]) = Some r2
    /\ walk r2 d = Some (Folder (touch (touch m)) es).
Proof.
  intros Hd Hc.
  destruct (store_in_folder touch c new d n m es Hd) as (r1 & Hs & Hw1).
  assert (Hin : assoc c (set_entry c new es) <> None)
    by (rewrite assoc_set_entry; discriminate).
  destruct (erase_in_folder touch c d r1 _ _ Hw1 Hin) as (r2 & He & Hw2).
  exists r1, r2. rewrite (remove_after_set c new es Hc) in Hw2.
  repeat split; assumption.
Qed.

Lemma plain_child_not_dot (pf : platform) (fs : filesystem)
  (dir name : string) :
  single_name pf name = true ->
  plain_path pf fs (child_path dir name) = true ->
  is_dot name = false.
Proof.
  intros Hn Hplain.
  destruct (plain_path_parts pf fs _ Hplain) as (_ & _ & _ & H4 & _).
  rewrite (child_path_components pf dir name Hn), forallb_app in H4.
  apply andb_true_iff in H4. destruct H4 as [_ H4]. simpl in H4.
  rewrite andb_true_r in H4.
  rewrite dot_name_is_dot. apply plain_name_not_dot, H4.
Qed.

(** The checks on the name alone let a plain path name through. *)
Lemma plain_path_passes (pf : platform) (fs : filesystem) (path : string) :
  plain_path pf fs path = true ->
  CROWN_PLATFORM_POSIX pf
  && (too_long path (components (separator pf) path)
      || last_is_dot (components (separator pf) path)) = false.
Proof.
  intros H. destruct (plain_path_accepted pf fs path H) as (A1 & A2 & _).
  rewrite A1, A2. apply andb_false_r.
Qed.

(** X7: on the Linux and Android branches, a file created under a plain
    path name in a directory, with a name the directory does not hold, shows
    up in the listing of that directory: list_files then gives the names it
    gave before and the new name, in some order. *)
Theorem X7_created_file_is_listed (pf : platform) (fs : filesystem)
  (dir name : string) (m : Z) (es : list (string * node))
  (files : Vector DynamicString) :
  is_linux pf = true ->
  entry_at pf fs dir = Some (Folder m es) ->
  single_name pf name = true ->
  plain_path pf fs (child_path dir name) = true ->
  assoc name es = None ->
  exists fs',
    create_file pf fs (child_path dir name) = (Ret tt, fs')
    /\ Permutation (list_files pf fs' dir files)
                   (name :: list_files pf fs dir files).
Proof.
  intros Hl Hd Hn Hplain Hfresh.
  assert (E : entry_at pf fs (child_path dir name) = None)
    by (rewrite (entry_at_child pf fs dir name m es Hd Hn); exact Hfresh).
  pose proof (plain_child_not_dot pf fs dir name Hn Hplain) as Hdot.
  rewrite (create_file_plain pf fs _ Hl Hplain E),
    (child_path_components pf dir name Hn).
  destruct (entry_at_named pf fs dir _ Hd) as [Hne Hw].
  destruct (store_in_folder (fun _ => now fs) name (File (now fs) "") _ _ _ _ Hw)
    as (r & Hs & Hw').
  rewrite Hs. eexists. split; [reflexivity |].
  assert (Hd' : entry_at pf (mkFs r (now fs)) dir
                = Some (Folder (now fs) (set_entry name (File (now fs) "") es))).
  { rewrite (entry_at_walk pf _ dir Hne). exact Hw'. }
  rewrite !list_files_appends.
  rewrite (opened_folder_entry pf _ dir _ _ Hd'),
    (opened_folder_entry pf fs dir _ _ Hd).
  rewrite (names_after_set_entry _ _ _ Hfresh), filter_app. simpl.
  unfold not_dot at 2. rewrite Hdot. simpl. rewrite app_assoc.
  apply Permutation_sym, Permutation_cons_append.
Qed.

Lemma X7_created_file_is_listed_witness :
  exists fs',
    create_file Linux sample_fs (child_path "/tmp" "b.txt") = (Ret tt, fs')
    /\ Permutation (list_files Linux fs' "/tmp" [])
                   ("b.txt" :: list_files Linux sample_fs "/tmp" []).
Proof.
  apply (X7_created_file_is_listed Linux sample_fs "/tmp" "b.txt" 2
           [("a.txt", File 3 "hi"); ("sub", Folder 4 [])] []);
    reflexivity.
Defined.

(** X8: delete_file stops in its assertion, leaving the file system as it
    was, when nothing is at the path and when the path is a directory;
    otherwise (the root being a directory) it returns, and then nothing is
    at the path any more and exists answers false. *)
Theorem X8_delete_file (pf : platform) (fs : filesystem) (path : string) :
  (entry_at pf fs path = None ->
   aborts (fst (delete_file pf fs path)) /\ snd (delete_file pf fs path) = fs)
  /\ (forall n,
        entry_at pf fs path = Some n -> counts_as_directory pf n = true ->
        aborts (fst (delete_file pf fs path))
        /\ snd (delete_file pf fs path) = fs)
  /\ (forall n,
        entry_at pf fs path = Some n -> counts_as_directory pf n = false ->
        is_folder (root fs) = true ->
        exists fs',
          delete_file pf fs path = (Ret tt, fs')
          /\ entry_at pf fs' path = None
          /\ exists_ pf fs' path = false).
Proof.
  rewrite delete_file_cases. split; [| split].
  - intros E. rewrite E. stops_unchanged.
  - intros n E Hn. rewrite E, Hn. stops_unchanged.
  - intros n E Hn Hroot. rewrite E, Hn.
    destruct (entry_at_named pf fs path n E) as [Hne Hw].
    assert (Hp : components (separator pf) path <> []).
    { intros Hnil. rewrite Hnil in Hw. simpl in Hw. inversion Hw; subst n.
      unfold counts_as_directory in Hn.
      destruct (root fs); try discriminate.
      destruct (CROWN_PLATFORM_POSIX pf); discriminate. }
    pose proof (erase_what_is_there (fun _ => now fs) _ _ _ Hp Hw) as He.
    destruct (erase _ (root fs) _) as [r |] eqn:Er; [| congruence].
    eexists. split; [reflexivity |].
    assert (Gone : entry_at pf (mkFs r (now fs)) path = None).
    { rewrite (entry_at_walk pf _ path Hne). simpl.
      eapply walk_erase. exact Er. }
    split; [exact Gone | apply nothing_there, Gone].
Qed.

Lemma X8_delete_file_witness :
  (aborts (fst (delete_file Linux sample_fs "/nope"))
   /\ snd (delete_file Linux sample_fs "/nope") = sample_fs)
  /\ (aborts (fst (delete_file Windows sample_fs "\tmp"))
      /\ snd (delete_file Windows sample_fs "\tmp") = sample_fs)
  /\ (exists fs',
        delete_file Linux sample_fs "/dangling" = (Ret tt, fs')
        /\ entry_at Linux fs' "/dangling" = None
        /\ exists_ Linux fs' "/dangling" = false).
Proof.
  split; [| split].
  - destruct (X8_delete_file Linux sample_fs "/nope") as (H & _).
    apply H. reflexivity.
  - destruct (X8_delete_file Windows sample_fs "\tmp") as (_ & H & _).
    apply (H (Folder 2 [("a.txt", File 3 "hi"); ("sub", Folder 4 [])]));
      reflexivity.
  - destruct (X8_delete_file Linux sample_fs "/dangling") as (_ & _ & H).
    apply (H (Link 5 false "/nowhere")); reflexivity.
Defined.

(** X9: on the Linux and Android branches, creating a file under a plain
    path name in a directory, with a name the directory does not hold, and
    deleting it again: both calls return, nothing is at the path afterwards,
    and list_files gives for the directory the names it gave before, in some
    order. *)
Theorem X9_create_then_delete_file (pf : platform) (fs : filesystem)
  (dir name : string) (m : Z) (es : list (string * node))
  (files : Vector DynamicString) :
  is_linux pf = true ->
  entry_at pf fs dir = Some (Folder m es) ->
  single_name pf name = true ->
  plain_path pf fs (child_path dir name) = true ->
  assoc name es = None ->
  exists fs1 fs2,
    create_file pf fs (child_path dir name) = (Ret tt, fs1)
    /\ delete_file pf fs1 (child_path dir name) = (Ret tt, fs2)
    /\ entry_at pf fs2 (child_path dir name) = None
    /\ Permutation (list_files pf fs2 dir files) (list_files pf fs dir files).
Proof.
  intros Hl Hd Hn Hplain Hfresh.
  assert (E : entry_at pf fs (child_path dir name) = None)
    by (rewrite (entry_at_child pf fs dir name m es Hd Hn); exact Hfresh).
  rewrite (create_file_plain pf fs _ Hl Hplain E),
    (child_path_components pf dir name Hn).
  destruct (entry_at_named pf fs dir _ Hd) as [Hne Hw].
  destruct (store_then_erase (fun _ => now fs) name (File (now fs) "")
              _ _ _ _ Hw Hfresh) as (r1 & r2 & Hs & Hw1 & He & Hw2).
  rewrite Hs. exists (mkFs r1 (now fs)), (mkFs r2 (now fs)).
  split; [reflexivity |].
  assert (Hd1 : entry_at pf (mkFs r1 (now fs)) dir
                = Some (Folder (now fs)
                          (set_entry name (File (now fs) "") es)))
    by (rewrite (entry_at_walk pf _ dir Hne); exact Hw1).
  assert (Hd2 : entry_at pf (mkFs r2 (now fs)) dir
                = Some (Folder (now fs) es))
    by (rewrite (entry_at_walk pf _ dir Hne); exact Hw2).
  split; [| split].
  - rewrite delete_file_cases.
    rewrite (entry_at_child pf _ dir name _ _ Hd1 Hn), assoc_set_entry.
    rewrite (child_path_components pf dir name Hn). cbn [now root].
    replace (counts_as_directory pf (File (now fs) "")) with false
      by (unfold counts_as_directory;
          destruct (CROWN_PLATFORM_POSIX pf); reflexivity).
    rewrite He. reflexivity.
  - rewrite (entry_at_child pf _ dir name _ _ Hd2 Hn). exact Hfresh.
  - rewrite !list_files_appends.
    rewrite (opened_folder_entry pf _ dir _ _ Hd2),
      (opened_folder_entry pf fs dir _ _ Hd).
    apply Permutation_refl.
Qed.

Lemma X9_create_then_delete_file_witness :
  exists fs1 fs2,
    create_file Linux sample_fs (child_path "/tmp" "t") = (Ret tt, fs1)
    /\ delete_file Linux fs1 (child_path "/tmp" "t") = (Ret tt, fs2)
    /\ entry_at Linux fs2 (child_path "/tmp" "t") = None
    /\ Permutation (list_files Linux fs2 "/tmp" ["x"])
                   (list_files Linux sample_fs "/tmp" ["x"]).
Proof.
  apply (X9_create_then_delete_file Linux sample_fs "/tmp" "t" 2
           [("a.txt", File 3 "hi"); ("sub", Folder 4 [])] ["x"]);
    reflexivity.
Defined.

(** ** Creating and deleting directories *)

Lemma queries_on_folder (pf : platform) (fs : filesystem) (path : string)
  (t : Z) (es : list (string * node)) :
  entry_at pf fs path = Some (Folder t es) ->
  exists_ pf fs path = true
  /\ is_directory pf fs path = Ret true
  /\ is_file pf fs path = Ret false.
Proof.
  intros E.
  split; [apply (entry_exists pf fs path _ E); reflexivity |].
  destruct (CROWN_PLATFORM_POSIX pf) eqn:Hpf.
  - rewrite (is_file_posix pf Hpf fs path),
      (is_directory_posix pf Hpf fs path), E.
    split; reflexivity.
  - rewrite (is_file_windows pf Hpf fs path),
      (is_directory_windows pf Hpf fs path), E.
    split; reflexivity.
Qed.

(** X10: on the Linux and Android branches, for a plain path name,
    create_directory returns exactly when nothing is at the path and the
    containing directory is there.  On every branch and for every path:
    when it stops in its assertion the file system is as it was; when it
    returns, exists and is_directory answer true for the path, is_file
    answers false, and list_files finds nothing in it. *)
Theorem X10_create_directory (pf : platform) (fs : filesystem)
  (path : string) (files : Vector DynamicString) :
  (is_linux pf = true -> plain_path pf fs path = true ->
   (returns (fst (create_directory pf fs path)) <->
    entry_at pf fs path = None
    /\ parent_is_folder fs (components (separator pf) path) = true))
  /\ (aborts (fst (create_directory pf fs path)) ->
      snd (create_directory pf fs path) = fs)
  /\ (returns (fst (create_directory pf fs path)) ->
      exists_ pf (snd (create_directory pf fs path)) path = true
      /\ is_directory pf (snd (create_directory pf fs path)) path = Ret true
      /\ is_file pf (snd (create_directory pf fs path)) path = Ret false
      /\ list_files pf (snd (create_directory pf fs path)) path files
         = files).
Proof.
  rewrite create_directory_cases.
  destruct (CROWN_PLATFORM_POSIX pf && _) eqn:C.
  { split; [| split].
    - intros _ Hplain. rewrite (plain_path_passes pf fs path Hplain) in C.
      discriminate.
    - reflexivity.
    - intros [a H]; discriminate. }
  destruct (entry_at pf fs path) as [n |] eqn:E.
  - split; [| split].
    + intros _ _.
      split; [intros [a H]; discriminate | intros [H _]; discriminate].
    + reflexivity.
    + intros [a H]; discriminate.
  - destruct (parent_is_folder fs (components (separator pf) path)) eqn:Hp.
    + destruct (store_with_parent (fun _ => now fs) fs _
                  (Folder (now fs) []) Hp) as (r & Hs & Hw).
      rewrite Hs. cbn [fst snd].
      assert (Hd : entry_at pf (mkFs r (now fs)) path
                   = Some (Folder (now fs) [])).
      { apply lookup_after;
          [eapply parent_gives_components; exact Hp | exact Hw]. }
      split; [| split].
      * intros _ _. split; [auto | intros _; it_returns].
      * intros [msg H]; discriminate.
      * intros _.
        destruct (queries_on_folder pf _ path _ _ Hd) as (H1 & H2 & H3).
        repeat split; try assumption.
        rewrite list_files_appends, (opened_folder_entry pf _ path _ _ Hd).
        apply app_nil_r.
    + rewrite (store_without_parent _ fs _ _ Hp). cbn [fst snd].
      split; [| split].
      * intros _ _.
        split; [intros [a H]; discriminate | intros [_ H]; discriminate].
      * reflexivity.
      * intros [a H]; discriminate.
Qed.

Lemma X10_create_directory_witness :
  (returns (fst (create_directory Linux sample_fs "/tmp/d")) <->
   entry_at Linux sample_fs "/tmp/d" = None
   /\ parent_is_folder sample_fs (components (separator Linux) "/tmp/d")
      = true)
  /\ snd (create_directory Linux sample_fs "/tmp") = sample_fs
  /\ is_directory Windows (snd (create_directory Windows sample_fs "\tmp\d"))
       "\tmp\d" = Ret true.
Proof.
  split; [| split].
  - destruct (X10_create_directory Linux sample_fs "/tmp/d" []) as (H & _).
    apply H; reflexivity.
  - destruct (X10_create_directory Linux sample_fs "/tmp" []) as (_ & H & _).
    apply H. eexists; reflexivity.
  - destruct (X10_create_directory Windows sample_fs "\tmp\d" [])
      as (_ & _ & H).
    apply H. eexists; reflexivity.
Defined.

(** X11: delete_directory never removes a directory that holds an entry:
    it stops in its assertion and leaves the file system as it was, as it
    does for a regular file and when nothing is at the path.  For an empty
    directory other than the root, named by a plain path name, it returns,
    and then nothing is at the path and exists answers false. *)
Theorem X11_delete_directory (pf : platform) (fs : filesystem)
  (path : string) :
  (forall m e es,
     entry_at pf fs path = Some (Folder m (e :: es)) ->
     aborts (fst (delete_directory pf fs path))
     /\ snd (delete_directory pf fs path) = fs)
  /\ (forall m data,
        entry_at pf fs path = Some (File m data) ->
        aborts (fst (delete_directory pf fs path))
        /\ snd (delete_directory pf fs path) = fs)
  /\ (entry_at pf fs path = None ->
      aborts (fst (delete_directory pf fs path))
      /\ snd (delete_directory pf fs path) = fs)
  /\ (forall m,
        entry_at pf fs path = Some (Folder m []) ->
        components (separator pf) path <> [] ->
        plain_path pf fs path = true ->
        exists fs',
          delete_directory pf fs path = (Ret tt, fs')
          /\ entry_at pf fs' path = None
          /\ exists_ pf fs' path = false).
Proof.
  rewrite delete_directory_cases. split; [| split; [| split]].
  - intros m e es E. rewrite E.
    destruct (CROWN_PLATFORM_POSIX pf && _); stops_unchanged.
  - intros m data E. rewrite E.
    destruct (CROWN_PLATFORM_POSIX pf && _); stops_unchanged.
  - intros E. rewrite E.
    destruct (CROWN_PLATFORM_POSIX pf && _); stops_unchanged.
  - intros m E Hp Hplain.
    rewrite (plain_path_passes pf fs path Hplain), E.
    cbn [removable_directory].
    destruct (entry_at_named pf fs path _ E) as [Hne Hw].
    pose proof (erase_what_is_there (fun _ => now fs) _ _ _ Hp Hw) as He.
    destruct (erase _ (root fs) _) as [r |] eqn:Er; [| congruence].
    eexists. split; [reflexivity |].
    assert (Gone : entry_at pf (mkFs r (now fs)) path = None).
    { rewrite (entry_at_walk pf _ path Hne). simpl.
      eapply walk_erase. exact Er. }
    split; [exact Gone | apply nothing_there, Gone].
Qed.

Lemma X11_delete_directory_witness :
  (aborts (fst (delete_directory Linux sample_fs "/tmp"))
   /\ snd (delete_directory Linux sample_fs "/tmp") = sample_fs)
  /\ (exists fs',
        delete_directory Windows sample_fs "\tmp\sub" = (Ret tt, fs')
        /\ entry_at Windows fs' "\tmp\sub" = None
        /\ exists_ Windows fs' "\tmp\sub" = false).
Proof.
  split.
  - destruct (X11_delete_directory Linux sample_fs "/tmp") as (H & _).
    apply (H 2 ("a.txt", File 3 "hi") [("sub", Folder 4 [])]). reflexivity.
  - destruct (X11_delete_directory Windows sample_fs "\tmp\sub")
      as (_ & _ & _ & H).
    apply (H 4); [reflexivity | discriminate | reflexivity].
Defined.

(** X12: on the Linux and Android branches, creating a directory under a
    plain path name in a directory, with a name the directory does not hold,
    and deleting it again: both calls return, nothing is at the path
    afterwards, and list_files gives for the containing directory the names
    it gave before, in some order. *)
Theorem X12_create_then_delete_directory (pf : platform) (fs : filesystem)
  (dir name : string) (m : Z) (es : list (string * node))
  (files : Vector DynamicString) :
  is_linux pf = true ->
  entry_at pf fs dir = Some (Folder m es) ->
  single_name pf name = true ->
  plain_path pf fs (child_path dir name) = true ->
  assoc name es = None ->
  exists fs1 fs2,
    create_directory pf fs (child_path dir name) = (Ret tt, fs1)
    /\ delete_directory pf fs1 (child_path dir name) = (Ret tt, fs2)
    /\ entry_at pf fs2 (child_path dir name) = None
    /\ Permutation (list_files pf fs2 dir files) (list_files pf fs dir files).
Proof.
  intros _ Hd Hn Hplain Hfresh.
  assert (E : entry_at pf fs (child_path dir name) = None)
    by (rewrite (entry_at_child pf fs dir name m es Hd Hn); exact Hfresh).
  pose proof (plain_path_passes pf fs _ Hplain) as Hok.
  rewrite create_directory_cases, Hok, E,
    (child_path_components pf dir name Hn).
  destruct (entry_at_named pf fs dir _ Hd) as [Hne Hw].
  destruct (store_then_erase (fun _ => now fs) name (Folder (now fs) [])
              _ _ _ _ Hw Hfresh) as (r1 & r2 & Hs & Hw1 & He & Hw2).
  rewrite Hs. exists (mkFs r1 (now fs)), (mkFs r2 (now fs)).
  split; [reflexivity |].
  assert (Hd1 : entry_at pf (mkFs r1 (now fs)) dir
                = Some (Folder (now fs)
                          (set_entry name (Folder (now fs) []) es)))
    by (rewrite (entry_at_walk pf _ dir Hne); exact Hw1).
  assert (Hd2 : entry_at pf (mkFs r2 (now fs)) dir
                = Some (Folder (now fs) es))
    by (rewrite (entry_at_walk pf _ dir Hne); exact Hw2).
  split; [| split].
  - rewrite delete_directory_cases, Hok.
    rewrite (entry_at_child pf _ dir name _ _ Hd1 Hn), assoc_set_entry.
    rewrite (child_path_components pf dir name Hn).
    cbn [now root removable_directory].
    rewrite He. reflexivity.
  - rewrite (entry_at_child pf _ dir name _ _ Hd2 Hn). exact Hfresh.
  - rewrite !list_files_appends.
    rewrite (opened_folder_entry pf _ dir _ _ Hd2),
      (opened_folder_entry pf fs dir _ _ Hd).
    apply Permutation_refl.
Qed.

Lemma X12_create_then_delete_directory_witness :
  exists fs1 fs2,
    create_directory Linux sample_fs (child_path "/tmp" "d") = (Ret tt, fs1)
    /\ delete_directory Linux fs1 (child_path "/tmp" "d") = (Ret tt, fs2)
    /\ entry_at Linux fs2 (child_path "/tmp" "d") = None
    /\ Permutation (list_files Linux fs2 "/tmp" [])
                   (list_files Linux sample_fs "/tmp" []).
Proof.
  apply (X12_create_then_delete_directory Linux sample_fs "/tmp" "d" 2
           [("a.txt", File 3 "hi"); ("sub", Folder 4 [])] []);
    reflexivity.
Defined.

(** ** Listings and processes *)

(** X14: list_files never starts the vector afresh: a second call, on the
    same path or another, puts its names behind those of the first. *)
Theorem X14_listings_accumulate (pf : platform) (fs : filesystem)
  (first second : string) (files : Vector DynamicString) :
  list_files pf fs second (list_files pf fs first files)
  = (files ++ list_files pf fs first [] ++ list_files pf fs second [])%list.
Proof.
  rewrite (list_files_appends pf fs second (list_files pf fs first files)).
  rewrite (list_files_appends pf fs first files).
  rewrite (list_files_appends pf fs first []),
    (list_files_appends pf fs second []).
  simpl. rewrite <- app_assoc. reflexivity.
Qed.

Lemma captured_merged (ws : list (stream * string)) :
  captured true ws = String.concat "" (map snd ws).
Proof.
  unfold captured. rewrite filter_keeps_all; [reflexivity |].
  intros [[] text] _; reflexivity.
Qed.

(** X13: for a program that can be started, named by an absolute path name
    of plain characters and given plain words as arguments: the POSIX
    branches add to the sink what the child wrote, standard output and
    standard error in the order written, each chunk read from the pipe cut
    at its first NUL character (so all of it when the child wrote no
    NUL), and return the wait status, 256 times the exit code (taken modulo
    256), not the exit code itself; the Windows branch returns the exit code
    and leaves the sink as it was. *)
Theorem X13_process_result (pf : platform) (h : host) (path args : string)
  (output : StringStream) (prog : program) :
  plain_command path = true ->
  plain_words args = true ->
  assoc path (executables h) = Some prog ->
  (CROWN_PLATFORM_POSIX pf = true ->
   execute_process pf h path args output
   = Ret (256 * (exit_code (prog (shell_args args)) mod 256),
          output ++ through_pipe (all_written (prog (shell_args args))))
   /\ (no_char nul (all_written (prog (shell_args args))) = true ->
       execute_process pf h path args output
       = Ret (256 * (exit_code (prog (shell_args args)) mod 256),
              output ++ all_written (prog (shell_args args)))))
  /\ (CROWN_PLATFORM_POSIX pf = false ->
      execute_process pf h path args output
      = Ret (s32 (u32 (exit_code (prog (words args)))), output)).
Proof.
  intros Hcmd _ Hprog. split.
  - intros Hpf.
    assert (E : execute_process pf h path args output
                = Ret (256 * (exit_code (prog (shell_args args)) mod 256),
                       output
                       ++ through_pipe (all_written (prog (shell_args args))))).
    { rewrite (execute_process_posix pf Hpf h path args output
                 (plain_command_shell_word path Hcmd)), Hprog.
      rewrite captured_merged, Z.shiftl_mul_pow2 by lia.
      unfold all_written. f_equal. f_equal. lia. }
    split; [exact E |].
    intros Hnul. rewrite E, (through_pipe_text _ Hnul). reflexivity.
  - intros Hpf.
    rewrite (execute_process_windows pf Hpf h path args output), Hprog.
    reflexivity.
Qed.

Lemma X13_process_result_witness :
  execute_process Linux host_hello "/bin/fail" "-q" "log: "
  = Ret (256 * (3 mod 256), "log: " ++ "out;err")
  /\ execute_process Windows host_hello "/bin/hello" "" "log: "
     = Ret (s32 (u32 0), "log: ").
Proof.
  split.
  - destruct (X13_process_result Linux host_hello "/bin/fail" "-q" "log: "
                (fun _ => mkRun [(stdout, "out;"); (stderr, "err")] 3)
                eq_refl eq_refl eq_refl) as (H & _).
    destruct (H eq_refl) as [_ H']. apply H'. reflexivity.
  - destruct (X13_process_result Windows host_hello "/bin/hello" "" "log: "
                (fun _ => mkRun [(stdout, "hello")] 0)
                eq_refl eq_refl eq_refl) as (_ & H).
    apply H. reflexivity.
Defined.
